(** * PostgreSQL MCP server: protocol dispatch of [server.py]

    A shallow embedding of the request handler [mcp_endpoint], of its
    streamed generator [sse_generator] and of [execute_query], followed by
    the properties of the protocol layer.

    Conventions of the embedding:
    - a Python object is a [pyval]; a [dict] is an association list in
      insertion order;
    - text is a [string] holding the UTF-8 encoding of a Python [str]
      (a lone surrogate, which UTF-8 cannot encode, is outside the model);
      [strip] and [upper] are [str.strip] and [str.upper] on ASCII text,
      and what line 108 gives on other text is taken from [stdlib] unless
      the ASCII characters before the first other one already decide it
      ([read_like_test]);
    - a [float] is the [PObj] of type name [float] with its [str()];
    - the serialiser [json.dumps], the message of the error that
      [JSONResponse] raises, the container case of [str()] and the
      database driver are not part of the program: they are taken as
      parameters ([stdlib], [driver]);
    - effects (database calls, frames written to the stream, sleeps) are
      logged in order by a small state-and-exception monad;
    - logging calls are left out. *)

From Stdlib Require Import String Ascii List ZArith Bool.
From Stdlib Require Import DecimalString.
Import ListNotations.
Open Scope string_scope.
Open Scope Z_scope.
Set Warnings "-register-all".

(** ** Python values *)

Inductive pyval : Type :=
| PNone
| PBool (b : bool)
| PInt (n : Z)
| PStr (s : string)
| PList (l : list pyval)
| PDict (d : list (string * pyval))
| PObj (tyname : string) (text : string).
  (* any other object (float, datetime, Decimal ...): its type name and
     its [str()] *)

Definition pydict := list (string * pyval).

(** Exceptions: the class decides which [except] clause catches it,
    [str(e)] is the message. *)
Inductive exn_class := JSONDecodeError | AttributeError | OtherError.

Record exn := Exn { exn_cls : exn_class; exn_msg : string }.

Definition is_JSONDecodeError (e : exn) : bool :=
  match exn_cls e with JSONDecodeError => true | _ => false end.

Definition type_name (v : pyval) : string :=
  match v with
  | PNone => "NoneType"
  | PBool _ => "bool"
  | PInt _ => "int"
  | PStr _ => "str"
  | PList _ => "list"
  | PDict _ => "dict"
  | PObj t _ => t
  end.

(** The message of the [AttributeError] raised by [v.attr]. *)
Definition no_attribute (v : pyval) (attr : string) : exn :=
  Exn AttributeError
      ("'" ++ type_name v ++ "' object has no attribute '" ++ attr ++ "'").

(** [d.get(k, default)] on a dict. *)
Fixpoint dict_get (d : pydict) (k : string) (default : pyval) : pyval :=
  match d with
  | [] => default
  | (k', v) :: d' => if String.eqb k' k then v else dict_get d' k default
  end.

Fixpoint dict_has (d : pydict) (k : string) : bool :=
  match d with
  | [] => false
  | (k', _) :: d' => String.eqb k' k || dict_has d' k
  end.

(** [d[k] = v]: an existing key keeps its place. *)
Fixpoint dict_set (d : pydict) (k : string) (v : pyval) : pydict :=
  match d with
  | [] => [(k, v)]
  | (k', v') :: d' =>
      if String.eqb k' k then (k', v) :: d' else (k', v') :: dict_set d' k v
  end.

(** [dict(zip(columns, row))]. *)
Definition dict_of_pairs (kvs : list (string * pyval)) : pydict :=
  fold_left (fun d kv => dict_set d (fst kv) (snd kv)) kvs [].

Definition zip {A B} (xs : list A) (ys : list B) : list (A * B) := combine xs ys.

(** [v.get(k, default)] on any object: only a dict has the method. *)
Definition py_get (v : pyval) (k : string) (default : pyval) : exn + pyval :=
  match v with
  | PDict d => inr (dict_get d k default)
  | _ => inl (no_attribute v "get")
  end.

(** [v == "literal"]: a value that is not a [str] is never equal to one. *)
Definition eq_str (v : pyval) (s : string) : bool :=
  match v with
  | PStr t => String.eqb t s
  | _ => false
  end.

(** ** Text operations *)

Definition str_of_int (n : Z) : string :=
  NilEmpty.string_of_int (Z.to_int n).

(** [c.isspace()] for an ASCII character: TAB, LF, VT, FF, CR, the four
    separators FS GS RS US, and the space. *)
Definition isspace (c : ascii) : bool :=
  let n := nat_of_ascii c in
  ((9 <=? n) && (n <=? 13) || (28 <=? n) && (n <=? 32))%nat.

Fixpoint lstrip (s : string) : string :=
  match s with
  | String c s' => if isspace c then lstrip s' else s
  | EmptyString => EmptyString
  end.

(** Strips from the right: the tail is stripped first, and the head goes
    too when nothing is left behind it. *)
Fixpoint rstrip (s : string) : string :=
  match s with
  | EmptyString => EmptyString
  | String c s' =>
      match rstrip s' with
      | EmptyString => if isspace c then EmptyString else String c EmptyString
      | r => String c r
      end
  end.

Definition strip (s : string) : string := rstrip (lstrip s).

Definition upper_char (c : ascii) : ascii :=
  let n := nat_of_ascii c in
  if ((97 <=? n) && (n <=? 122))%nat then ascii_of_nat (n - 32) else c.

Fixpoint upper (s : string) : string :=
  match s with
  | EmptyString => EmptyString
  | String c s' => String (upper_char c) (upper s')
  end.

(** [s.startswith(p)] and [s.startswith((p1, p2, ...))]. *)
Definition startswith (s p : string) : bool := String.prefix p s.

Definition startswith_any (s : string) (ps : list string) : bool :=
  existsb (startswith s) ps.

Arguments startswith_any : simpl never.

(** [sub in s]. *)
Fixpoint contains (sub s : string) : bool :=
  String.prefix sub s ||
  match s with
  | EmptyString => false
  | String _ s' => contains sub s'
  end.

Definition nl : string := String (ascii_of_nat 10) EmptyString.

Fixpoint spaces (n : nat) : string :=
  match n with
  | O => EmptyString
  | S n' => String " " (spaces n')
  end.

(** The test of [execute_query] on line 108, for ASCII text. *)
Definition read_keywords : list string := ["SELECT"; "WITH"; "SHOW"; "DESCRIBE"].

Definition is_read_like (query : string) : bool :=
  startswith_any (upper (strip query)) read_keywords.

(** A byte below 128 is an ASCII character; any other byte is part of
    the encoding of a character outside ASCII. *)
Definition is_ascii_char (c : ascii) : bool := (nat_of_ascii c <? 128)%nat.

Fixpoint is_ascii (s : string) : bool :=
  match s with
  | EmptyString => true
  | String c s' => is_ascii_char c && is_ascii s'
  end.

(** The characters before the first one outside ASCII. *)
Fixpoint ascii_prefix (s : string) : string :=
  match s with
  | EmptyString => EmptyString
  | String c s' => if is_ascii_char c then String c (ascii_prefix s') else EmptyString
  end.

(** ** What [JSONResponse] can serialise *)

(** [str(x)] of a float [x] that is not finite. *)
Definition non_finite (text : string) : bool :=
  String.eqb text "inf" || String.eqb text "-inf" || String.eqb text "nan".

(** [JSONResponse(content)] serialises [content] when it is built, with
    [allow_nan=False] and no [default]: a float that is not finite and an
    object that is no JSON value make it raise. *)
Fixpoint unserialisable (v : pyval) : bool :=
  match v with
  | PObj tyname text =>
      if String.eqb tyname "float" then non_finite text else true
  | PList l => existsb unserialisable l
  | PDict d => existsb (fun kv => unserialisable (snd kv)) d
  | _ => false
  end.


(** ** Parameters: the Python library and the database driver *)

(** What the handlers use of the standard library and do not define. *)
Record stdlib := {
  (* [json.dumps(obj)] *)
  json_dumps : pyval -> string;
  (* [json.dumps(obj, default=str, indent=2)] *)
  json_dumps_indent2 : pyval -> string;
  (* [str(obj)] for a list or a dict *)
  str_container : pyval -> string;
  (* [str(e)] of the error [JSONResponse(content)] raises on a content
     it cannot serialise *)
  render_message : pyval -> string;
  (* [query.strip().upper().startswith(...)] of line 108 on text with
     characters outside ASCII *)
  unicode_read_like : string -> bool
}.

(** What a cursor holds once [cursor.execute(query)] has returned. *)
Record executed := {
  description : option (list string);  (* [None], or the column names [desc[0]] *)
  fetchall : exn + list (list pyval);  (* the row tuples, or the error raised *)
  rowcount : Z
}.

(** The behaviour of [psycopg2] against one database: each call made in
    the [try] block of [execute_query], and the [rollback] of its
    handler, either returns or raises.  The [close] of a cursor and of a
    connection return. *)
Record driver := {
  connect : exn + unit;                (* [psycopg2.connect] with [DB_CONFIG] *)
  open_cursor : exn + unit;            (* [conn.cursor()] *)
  execute : pyval -> exn + executed;   (* [cursor.execute(query)] *)
  commit : exn + unit;                 (* [conn.commit()] *)
  rollback : exn + unit                (* [conn.rollback()] *)
}.

(** ** Effects *)

(** A frame written to the event stream: [Data v] is the text
    [f"data: {json.dumps(v)}\n\n"], [Text s] is [s] itself (see [wire]). *)
Inductive frame :=
| Data (payload : pyval)
| Text (s : string).

Inductive effect :=
| DbConnect
| DbCursor
| DbExecute (query : pyval)
| DbFetchall
| DbCommit
| DbRollback
| DbCursorClose
| DbConnClose
| Yield (f : frame)
| Sleep (seconds : Z).

Inductive connection := Connection.
Inductive cursor_obj := Cursor.

(** The locals [conn] and [cursor] of [execute_query], and the effects
    performed so far, oldest first. *)
Record state := {
  conn : option connection;
  cursor : option cursor_obj;
  log : list effect
}.

Definition initial : state := {| conn := None; cursor := None; log := [] |}.

Definition M (A : Type) : Type := state -> (exn + A) * state.

Definition ret {A} (a : A) : M A := fun st => (inr a, st).

Definition bind {A B} (m : M A) (k : A -> M B) : M B :=
  fun st =>
    match m st with
    | (inr a, st') => k a st'
    | (inl e, st') => (inl e, st')
    end.

Definition raise {A} (e : exn) : M A := fun st => (inl e, st).

Declare Scope py_scope.
Delimit Scope py_scope with py.
Notation "x <- m ;; k" := (bind m (fun x => k))
  (at level 61, m at next level, right associativity) : py_scope.
Notation "m ;; k" := (bind m (fun _ => k))
  (at level 61, right associativity) : py_scope.
Open Scope py_scope.

Definition lift {A} (r : exn + A) : M A :=
  match r with
  | inr a => ret a
  | inl e => raise e
  end.

Definition perform (e : effect) : M unit :=
  fun st => (inr tt, {| conn := conn st; cursor := cursor st; log := log st ++ [e] |}).

Definition set_conn (c : option connection) : M unit :=
  fun st => (inr tt, {| conn := c; cursor := cursor st; log := log st |}).

Definition set_cursor (c : option cursor_obj) : M unit :=
  fun st => (inr tt, {| conn := conn st; cursor := c; log := log st |}).

Definition get_conn : M (option connection) := fun st => (inr (conn st), st).
Definition get_cursor : M (option cursor_obj) := fun st => (inr (cursor st), st).

(** [try: body  except C as e: handler e], where [catches] says whether
    the class of the exception is (a subclass of) [C]. *)
Definition try_except {A} (body : M A) (catches : exn -> bool)
           (handler : exn -> M A) : M A :=
  fun st =>
    match body st with
    | (inr a, st') => (inr a, st')
    | (inl e, st') => if catches e then handler e st' else (inl e, st')
    end.

(** [try: body  finally: final]: an exception of [final] replaces the
    outcome of [body]. *)
Definition try_finally {A} (body : M A) (final : M unit) : M A :=
  fun st =>
    match body st with
    | (r, st') =>
        match final st' with
        | (inr _, st'') => (r, st'')
        | (inl e, st'') => (inl e, st'')
        end
    end.

Definition Exception (e : exn) : bool := true.

Definition when (b : bool) (m : M unit) : M unit := if b then m else ret tt.

Definition is_some {A} (o : option A) : bool :=
  match o with Some _ => true | None => false end.

Definition yield (f : frame) : M unit := perform (Yield f).
Definition sleep (seconds : Z) : M unit := perform (Sleep seconds).

Definition get (v : pyval) (k : string) (default : pyval) : M pyval :=
  lift (py_get v k default).

(** ** The program *)

Inductive http_method := GET | POST | OPTIONS.

(** What the handler reads of a request: its method, its [accept]
    header if any, and what [await request.json()] gives. *)
Record request := {
  method : http_method;
  accept : option string;
  json : exn + pyval
}.

Inductive response :=
| Response (status_code : Z) (headers : list (string * string))
| StreamingResponse (content : M unit) (media_type : string)
                    (headers : list (string * string))
| JSONResponse (content : pyval) (status_code : Z)
| ReturnsNone.  (* the function ends without a [return] *)

Definition MCP_TOOLS : pyval :=
  PList
    [ PDict
        [ ("name", PStr "postgres_query");
          ("description",
           PStr "Execute a SQL query on the PostgreSQL database. Use this to SELECT, INSERT, UPDATE, or DELETE data.");
          ("inputSchema",
           PDict
             [ ("type", PStr "object");
               ("properties",
                PDict
                  [ ("query",
                     PDict
                       [ ("type", PStr "string");
                         ("description",
                          PStr "The SQL query to execute (e.g., SELECT * FROM employees WHERE department='Engineering')") ]) ]);
               ("required", PList [PStr "query"]) ]) ];
      PDict
        [ ("name", PStr "postgres_list_tables");
          ("description", PStr "List all tables in the current PostgreSQL database");
          ("inputSchema",
           PDict
             [ ("type", PStr "object");
               ("properties", PDict []);
               ("required", PList []) ]) ];
      PDict
        [ ("name", PStr "postgres_describe_table");
          ("description",
           PStr "Get the schema/structure of a specific table including column names and types");
          ("inputSchema",
           PDict
             [ ("type", PStr "object");
               ("properties",
                PDict
                  [ ("table_name",
                     PDict
                       [ ("type", PStr "string");
                         ("description", PStr "Name of the table to describe") ]) ]);
               ("required", PList [PStr "table_name"]) ]) ] ].

Section Model.

Variable L : stdlib.
Variable psycopg2 : driver.

(** [str(v)], as an f-string applies it to an interpolated value. *)
Definition py_str (v : pyval) : string :=
  match v with
  | PStr s => s
  | PNone => "None"
  | PBool true => "True"
  | PBool false => "False"
  | PInt n => str_of_int n
  | PObj _ text => text
  | PList _ | PDict _ => str_container L v
  end.

Definition get_db_connection : M connection :=
  try_except
    (perform DbConnect;;
     lift (connect psycopg2);;
     ret Connection)
    Exception
    (fun e => raise e).

Definition conn_cursor (c : connection) : M cursor_obj :=
  perform DbCursor;;
  lift (open_cursor psycopg2);;
  ret Cursor.

Definition cursor_execute (c : cursor_obj) (query : pyval) : M executed :=
  perform (DbExecute query);;
  lift (execute psycopg2 query).

Definition cursor_fetchall (done : executed) : M (list (list pyval)) :=
  perform DbFetchall;;
  lift (fetchall done).

Definition conn_commit (c : connection) : M unit :=
  perform DbCommit;;
  lift (commit psycopg2).

Definition conn_rollback : M unit :=
  perform DbRollback;;
  lift (rollback psycopg2).

(** [s.strip().upper().startswith(('SELECT', 'WITH', 'SHOW', 'DESCRIBE'))]
    for a [str].  On ASCII text it is [is_read_like].  On other text the
    answer is yes when the ASCII characters before the first other
    character are already read-like: the leading whitespace and the
    keyword are then ASCII, [strip] leaves the keyword in front and
    [upper] works character by character.  Otherwise it is what Python
    gives. *)
Definition read_like_test (s : string) : bool :=
  if is_ascii s then is_read_like s
  else if is_read_like (ascii_prefix s) then true
  else unicode_read_like L s.

(** The same on any object: [query.strip()] is an [AttributeError] on
    anything but a [str]. *)
Definition startswith_read_keyword (query : pyval) : M bool :=
  match query with
  | PStr s => ret (read_like_test s)
  | _ => raise (no_attribute query "strip")
  end.

(** [JSONResponse(content, status_code)]. *)
Definition json_response (content : pyval) (status_code : Z) : M response :=
  if unserialisable content
  then raise (Exn OtherError (render_message L content))
  else ret (JSONResponse content status_code).

Definition read_result (result : list pyval) : pyval :=
  PDict [ ("success", PBool true);
          ("data", PList result);
          ("row_count", PInt (Z.of_nat (List.length result))) ].

Definition write_result (n : Z) : pyval :=
  PDict [ ("success", PBool true);
          ("message", PStr ("Query executed successfully. Rows affected: " ++ py_str (PInt n)));
          ("affected_rows", PInt n) ].

Definition failure (message : string) : pyval :=
  PDict [ ("success", PBool false); ("error", PStr message) ].

(** The rows as dicts: [[dict(zip(columns, row)) for row in rows]]. *)
Definition rows_as_dicts (columns : list string) (rows : list (list pyval)) : list pyval :=
  map (fun row => PDict (dict_of_pairs (zip columns row))) rows.

(** The [try] block of [execute_query], lines 103-121. *)
Definition execute_query_try (query : pyval) : M pyval :=
  c <- get_db_connection;;
  set_conn (Some c);;
  cur <- conn_cursor c;;
  set_cursor (Some cur);;
  done <- cursor_execute cur query;;
  read_like <- startswith_read_keyword query;;
  if read_like then
    let columns :=
      match description done with
      | Some (d :: ds) => d :: ds
      | _ => []
      end in
    rows <- cursor_fetchall done;;
    let result := rows_as_dicts columns rows in
    ret (read_result result)
  else
    conn_commit c;;
    ret (write_result (rowcount done)).

Definition execute_query (query : pyval) : M pyval :=
  set_conn None;;
  set_cursor None;;
  try_finally
    (try_except
       (execute_query_try query)
       Exception
       (fun e =>
          c <- get_conn;;
          when (is_some c) conn_rollback;;
          ret (failure (exn_msg e))))
    (cur <- get_cursor;;
     when (is_some cur) (perform DbCursorClose);;
     c <- get_conn;;
     when (is_some c) (perform DbConnClose)).

(** [for _ in range(n): body]. *)
Fixpoint for_range (n : nat) (body : M unit) : M unit :=
  match n with
  | O => ret tt
  | S n' => body;; for_range n' body
  end.

Definition ping_frame : frame := Text (": ping" ++ nl ++ nl).

(** The characters a frame puts on the wire. *)
Definition wire (f : frame) : string :=
  match f with
  | Data v => "data: " ++ json_dumps L v ++ nl ++ nl
  | Text s => s
  end.

Definition list_tables_query : string :=
  "SELECT table_name FROM information_schema.tables WHERE table_schema='public' ORDER BY table_name".

(** The template of lines 266-271, with its line breaks and indentation. *)
Definition sse_describe_query (table_name : pyval) : string :=
  nl ++ spaces 36 ++ "SELECT column_name, data_type, is_nullable, column_default" ++
  nl ++ spaces 36 ++ "FROM information_schema.columns" ++
  nl ++ spaces 36 ++ "WHERE table_name = '" ++ py_str table_name ++ "'" ++
  nl ++ spaces 36 ++ "ORDER BY ordinal_position" ++
  nl ++ spaces 32.

(** The template of line 420. *)
Definition http_describe_query (table_name : pyval) : string :=
  "SELECT column_name, data_type, is_nullable FROM information_schema.columns WHERE table_name = '"
  ++ py_str table_name ++ "' ORDER BY ordinal_position".

Definition success_response (msg_id result : pyval) : pyval :=
  PDict [ ("jsonrpc", PStr "2.0"); ("id", msg_id); ("result", result) ].

Definition error_object (code : Z) (message : string) : pyval :=
  PDict [ ("code", PInt code); ("message", PStr message) ].

Definition tool_content (result : pyval) : pyval :=
  PDict [ ("content",
           PList [ PDict [ ("type", PStr "text");
                           ("text", PStr (json_dumps_indent2 L result)) ] ]) ].

Definition server_info : pyval :=
  PDict [ ("name", PStr "PostgreSQL MCP Server"); ("version", PStr "1.0.0") ].

Definition sse_generator (request : request) : M unit :=
  try_except
    (match method request with
     | POST =>
         try_except
           (body <- lift (json request);;
            method <- get body "method" (PStr EmptyString);;
            params <- get body "params" (PDict []);;
            msg_id <- get body "id" (PInt 1);;
            if eq_str method "initialize" then
              yield (Data
                       (success_response msg_id
                          (PDict [ ("protocolVersion", PStr "2024-11-05");
                                   ("capabilities", PDict [("tools", PDict [])]);
                                   ("serverInfo", server_info) ])))
            else if eq_str method "tools/list" then
              yield (Data (success_response msg_id (PDict [("tools", MCP_TOOLS)])))
            else if eq_str method "resources/list" then
              yield (Data (success_response msg_id (PDict [("resources", PList [])])))
            else if eq_str method "prompts/list" then
              yield (Data (success_response msg_id (PDict [("prompts", PList [])])))
            else if eq_str method "tools/call" then
              tool_name <- get params "name" (PStr EmptyString);;
              arguments <- get params "arguments" (PDict []);;
              result <-
                (if eq_str tool_name "postgres_list_tables" then
                   execute_query (PStr list_tables_query)
                 else if eq_str tool_name "postgres_describe_table" then
                   table_name <- get arguments "table_name" (PStr EmptyString);;
                   execute_query (PStr (sse_describe_query table_name))
                 else if eq_str tool_name "postgres_query" then
                   query <- get arguments "query" (PStr EmptyString);;
                   execute_query query
                 else
                   ret (failure ("Unknown tool: " ++ py_str tool_name)));;
              yield (Data (success_response msg_id (tool_content result)))
            else
              yield (Data
                       (PDict [ ("jsonrpc", PStr "2.0");
                                ("id", msg_id);
                                ("error",
                                 error_object (-32601)
                                   ("Method not found: " ++ py_str method)) ])))
           is_JSONDecodeError
           (fun _ =>
              yield (Data
                       (PDict [ ("jsonrpc", PStr "2.0");
                                ("error",
                                 error_object (-32700) "Parse error: Invalid JSON") ])))
     | _ =>
         yield (Data
                  (PDict [ ("jsonrpc", PStr "2.0");
                           ("result",
                            PDict [ ("protocolVersion", PStr "2024-11-05");
                                    ("capabilities", PDict [("tools", PDict [])]);
                                    ("serverInfo", server_info) ]) ]));;
         for_range 3 (sleep 1;; yield ping_frame)
     end)
    Exception
    (fun e =>
       yield (Data
                (PDict [ ("jsonrpc", PStr "2.0");
                         ("error",
                          error_object (-32603) ("Internal error: " ++ exn_msg e)) ]))).

Definition mcp_endpoint (request : request) : M response :=
  match method request with
  | OPTIONS =>
      ret (Response 200
             [ ("Access-Control-Allow-Origin", "*");
               ("Access-Control-Allow-Methods", "*");
               ("Access-Control-Allow-Headers", "*") ])
  | verb =>
      let accept_header :=
        match accept request with Some a => a | None => EmptyString end in
      let prefer_sse :=
        contains "text/event-stream" accept_header ||
        match verb with GET => true | _ => false end in
      if prefer_sse then
        ret (StreamingResponse (sse_generator request) "text/event-stream"
               [ ("Cache-Control", "no-cache");
                 ("Connection", "keep-alive");
                 ("X-Accel-Buffering", "no");
                 ("Access-Control-Allow-Origin", "*") ])
      else
        try_except
          (body <- lift (json request);;
           method <- get body "method" (PStr EmptyString);;
           params <- get body "params" (PDict []);;
           msg_id <- get body "id" (PInt 1);;
           if eq_str method "initialize" then
             json_response
               (success_response msg_id
                  (PDict [ ("protocolVersion", PStr "2024-11-05");
                           ("capabilities",
                            PDict [ ("tools", PDict []);
                                    ("resources", PDict []);
                                    ("prompts", PDict []) ]);
                           ("serverInfo", server_info) ]))
               200
           else if eq_str method "tools/list" then
             json_response (success_response msg_id (PDict [("tools", MCP_TOOLS)])) 200
           else if eq_str method "resources/list" then
             json_response (success_response msg_id (PDict [("resources", PList [])])) 200
           else if eq_str method "prompts/list" then
             json_response (success_response msg_id (PDict [("prompts", PList [])])) 200
           else if eq_str method "tools/call" then
             tool_name <- get params "name" (PStr EmptyString);;
             arguments <- get params "arguments" (PDict []);;
             result <-
               (if eq_str tool_name "postgres_list_tables" then
                  execute_query (PStr list_tables_query)
                else if eq_str tool_name "postgres_describe_table" then
                  table_name <- get arguments "table_name" (PStr EmptyString);;
                  execute_query (PStr (http_describe_query table_name))
                else if eq_str tool_name "postgres_query" then
                  query <- get arguments "query" (PStr EmptyString);;
                  execute_query query
                else
                  ret (failure ("Unknown tool: " ++ py_str tool_name)));;
             json_response (success_response msg_id (tool_content result)) 200
           else
             ret ReturnsNone)
          Exception
          (fun e =>
             json_response
               (PDict [ ("jsonrpc", PStr "2.0");
                        ("error", error_object (-32603) (exn_msg e)) ])
               500)
  end.

End Model.

Arguments execute_query : simpl never.
Arguments read_like_test : simpl never.
Arguments unserialisable : simpl never.

(** ** Vocabulary of the statements *)

(** A handler starts with nothing logged. *)
Definition run {A} (m : M A) : (exn + A) * state := m initial.

(** The state in which the [try] block of [execute_query] starts: both
    locals are [None]. *)
Definition entered (st : state) : state :=
  {| conn := None; cursor := None; log := log st |}.

(** The frames of a log, in the order they were yielded. *)
Fixpoint frames (l : list effect) : list frame :=
  match l with
  | [] => []
  | Yield f :: l' => f :: frames l'
  | _ :: l' => frames l'
  end.

(** The statements handed to [cursor.execute], in order. *)
Fixpoint issued (l : list effect) : list pyval :=
  match l with
  | [] => []
  | DbExecute q :: l' => q :: issued l'
  | _ :: l' => issued l'
  end.

(** A POST request with the given [accept] header and parsed body. *)
Definition post (a : option string) (body : exn + pyval) : request :=
  {| method := POST; accept := a; json := body |}.

(** The header value under which [mcp_endpoint] answers with one JSON
    document. *)
Definition unary (a : option string) : bool :=
  negb (contains "text/event-stream"
          match a with Some h => h | None => EmptyString end).

(** The envelope fields as the handlers read them. *)
Definition envelope_method (d : pydict) : pyval := dict_get d "method" (PStr EmptyString).
Definition envelope_params (d : pydict) : pyval := dict_get d "params" (PDict []).
Definition envelope_id (d : pydict) : pyval := dict_get d "id" (PInt 1).
Definition call_name (p : pydict) : pyval := dict_get p "name" (PStr EmptyString).
Definition call_arguments (p : pydict) : pyval := dict_get p "arguments" (PDict []).

Definition known_methods : list string :=
  ["initialize"; "tools/list"; "resources/list"; "prompts/list"; "tools/call"].

Definition known_tools : list string :=
  ["postgres_list_tables"; "postgres_describe_table"; "postgres_query"].

Definition one_of (v : pyval) (names : list string) : bool :=
  existsb (eq_str v) names.

Definition rpc_error (msg_id : pyval) (code : Z) (message : string) : pyval :=
  PDict [ ("jsonrpc", PStr "2.0"); ("id", msg_id);
          ("error", PDict [ ("code", PInt code); ("message", PStr message) ]) ].

Definition rpc_error_no_id (code : Z) (message : string) : pyval :=
  PDict [ ("jsonrpc", PStr "2.0");
          ("error", PDict [ ("code", PInt code); ("message", PStr message) ]) ].

(** The response is a dict with an [id] entry equal to the envelope's,
    or to 1 when the envelope has none. *)
Definition echoes_id (d : pydict) (resp : pyval) : Prop :=
  exists r, resp = PDict r /\ dict_has r "id" = true /\
            dict_get r "id" PNone = envelope_id d.

(** The statement a known tool hands to [execute_query], when its
    arguments can be read; [describe] is the template of the transport. *)
Definition tool_query (describe : pyval -> string) (tool_name arguments : pyval)
  : option pyval :=
  if eq_str tool_name "postgres_list_tables" then
    Some (PStr list_tables_query)
  else if eq_str tool_name "postgres_describe_table" then
    match arguments with
    | PDict args => Some (PStr (describe (dict_get args "table_name" (PStr EmptyString))))
    | _ => None
    end
  else if eq_str tool_name "postgres_query" then
    match arguments with
    | PDict args => Some (dict_get args "query" (PStr EmptyString))
    | _ => None
    end
  else None.

Definition mapping (v : pyval) : bool :=
  match v with PDict _ => true | _ => false end.

(** No [.get] of the handlers is applied to something that is not a
    dict: outside [tools/call] only the body is read; inside it, [params]
    is read, and [arguments] is read for the two tools that take any. *)
Definition faultless (d : pydict) : bool :=
  if eq_str (envelope_method d) "tools/call" then
    match envelope_params d with
    | PDict p =>
        negb (one_of (call_name p) ["postgres_describe_table"; "postgres_query"])
        || mapping (call_arguments p)
    | _ => false
    end
  else true.

(** The one frame of a streamed answer carries the envelope's id. *)
Definition sse_echoes_id (L : stdlib) (db : driver) (a : option string)
           (d : pydict) : Prop :=
  exists resp,
    frames (log (snd (run (sse_generator L db (post a (inr (PDict d))))))) = [Data resp] /\
    echoes_id d resp.

(** Which of [data], [message] and [error] a tool result has. *)
Definition populated (result : pyval) : bool * bool * bool :=
  match result with
  | PDict r => (dict_has r "data", dict_has r "message", dict_has r "error")
  | _ => (false, false, false)
  end.

(** *** Read-like statements, in the words of the specification *)

Fixpoint all_space (s : string) : Prop :=
  match s with
  | EmptyString => True
  | String c s' => isspace c = true /\ all_space s'
  end.

Definition is_upper_letter (c : ascii) : bool :=
  ((65 <=? nat_of_ascii c) && (nat_of_ascii c <=? 90))%nat.

Definition lower_of (c : ascii) : ascii := ascii_of_nat (nat_of_ascii c + 32).

(** Two characters are the same up to the case of a letter. *)
Definition same_letter (c k : ascii) : Prop :=
  c = k \/
  (is_upper_letter k = true /\ c = lower_of k) \/
  (is_upper_letter c = true /\ k = lower_of c).

Fixpoint caseless (w k : string) : Prop :=
  match w, k with
  | EmptyString, EmptyString => True
  | String c w', String d k' => same_letter c d /\ caseless w' k'
  | _, _ => False
  end.

Fixpoint no_space (s : string) : Prop :=
  match s with
  | EmptyString => True
  | String c s' => isspace c = false /\ no_space s'
  end.

(** Once the leading whitespace [ws] is set aside, the statement begins
    with one of the four keywords, in any mix of cases. *)
Definition spec_read_like (query : string) : Prop :=
  exists ws w rest keyword,
    query = ws ++ w ++ rest /\ all_space ws /\
    In keyword read_keywords /\ caseless w keyword.

(** *** Sample parameters *)

(** A plain rendering of a value, without escapes; it only serves to
    instantiate [stdlib] in the examples. *)
Fixpoint show (v : pyval) : string :=
  match v with
  | PNone => "null"
  | PBool true => "true"
  | PBool false => "false"
  | PInt n => str_of_int n
  | PStr s => "'" ++ s ++ "'"
  | PList l => "[" ++ String.concat ", " (map show l) ++ "]"
  | PDict d =>
      "{" ++ String.concat ", " (map (fun kv => "'" ++ fst kv ++ "': " ++ show (snd kv)) d) ++ "}"
  | PObj _ text => "'" ++ text ++ "'"
  end.

(** The message is that of the [ValueError] of [json.dumps] on a float
    that is not finite, which later versions of Python follow by the
    value.  The examples are ASCII text, for which [unicode_read_like]
    is not consulted. *)
Definition sample_lib : stdlib :=
  {| json_dumps := show;
     json_dumps_indent2 := show;
     str_container := show;
     render_message := fun _ => "Out of range float values are not JSON compliant";
     unicode_read_like := fun _ => false |}.

(** A database with tables [a] and [b] that accepts every statement. *)
Definition sample_db : driver :=
  {| connect := inr tt;
     open_cursor := inr tt;
     execute := fun _ =>
       inr {| description := Some ["table_name"];
              fetchall := inr [[PStr "a"]; [PStr "b"]];
              rowcount := 1 |};
     commit := inr tt;
     rollback := inr tt |}.

(** A database that refuses connections. *)
Definition unreachable_db : driver :=
  {| connect := inl (Exn OtherError "connection refused");
     open_cursor := inr tt;
     execute := fun _ => inl (Exn OtherError "no connection");
     commit := inr tt;
     rollback := inr tt |}.

(** A database whose connection is lost while a statement runs:
    [execute] raises, and so does the [rollback] that follows. *)
Definition lost_connection_db : driver :=
  {| connect := inr tt;
     open_cursor := inr tt;
     execute := fun _ =>
       inl (Exn OtherError "server closed the connection unexpectedly");
     commit := inr tt;
     rollback := inl (Exn OtherError "connection already closed") |}.

(** The id a body with [1e999] as id parses to. *)
Definition infinity : pyval := PObj "float" "inf".

(** A call of an unknown tool under that id. *)
Definition infinite_id_call : pydict :=
  [ ("jsonrpc", PStr "2.0"); ("id", infinity); ("method", PStr "tools/call");
    ("params", PDict [ ("name", PStr "postgres_drop"); ("arguments", PDict []) ]) ].

(** What [request.json()] raises on the body [not json]. *)
Definition bad_json : exn + pyval :=
  inl (Exn JSONDecodeError "Expecting value: line 1 column 1 (char 0)").

(** Sample envelopes, all with id 7. *)
Definition envelope (method : string) (params : pydict) : pydict :=
  [ ("jsonrpc", PStr "2.0"); ("id", PInt 7);
    ("method", PStr method); ("params", PDict params) ].

Definition nonexistent_call : pydict := envelope "nonexistent" [].

Definition list_tables_call : pydict :=
  envelope "tools/call" [ ("name", PStr "postgres_list_tables"); ("arguments", PDict []) ].

Definition describe_call : pydict :=
  envelope "tools/call"
    [ ("name", PStr "postgres_describe_table");
      ("arguments", PDict [("table_name", PStr "employees")]) ].

Definition unknown_tool_call : pydict :=
  envelope "tools/call" [ ("name", PStr "postgres_drop"); ("arguments", PDict []) ].

(** [arguments] is a list where the tool reads a mapping. *)
Definition list_arguments_call : pydict :=
  envelope "tools/call"
    [ ("name", PStr "postgres_describe_table"); ("arguments", PList []) ].

Definition no_method_envelope : pydict := [ ("jsonrpc", PStr "2.0"); ("id", PInt 7) ].

Definition json_accept : option string := Some "application/json".
Definition sse_accept : option string := Some "text/event-stream".


(** Further sample envelopes. *)
Definition initialize_call : pydict := envelope "initialize" [].

Definition query_call : pydict :=
  envelope "tools/call"
    [ ("name", PStr "postgres_query");
      ("arguments", PDict [("query", PStr "DELETE FROM t")]) ].

(** A [tools/call] without [params], and a description without
    [arguments]. *)
Definition bare_call : pydict :=
  [ ("jsonrpc", PStr "2.0"); ("id", PInt 7); ("method", PStr "tools/call") ].

Definition bare_describe_call : pydict :=
  envelope "tools/call" [ ("name", PStr "postgres_describe_table") ].

(** [postgres_list_tables] with a list as [arguments]. *)
Definition list_tables_odd_call : pydict :=
  envelope "tools/call"
    [ ("name", PStr "postgres_list_tables"); ("arguments", PList [PInt 1]) ].

(** ** The health endpoint *)

(** [health], lines 151-159: a trial connection, closed at once. *)
Definition health (L : stdlib) (psycopg2 : driver) : M response :=
  try_except
    (c <- get_db_connection psycopg2;;
     perform DbConnClose;;
     json_response L
       (PDict [ ("status", PStr "healthy"); ("database", PStr "connected") ])
       200)
    Exception
    (fun e =>
       json_response L
         (PDict [ ("status", PStr "unhealthy"); ("error", PStr (exn_msg e)) ])
         503).

(** ** Further vocabulary *)

(** How often an effect of some kind occurs in a log. *)
Definition count (kind : effect -> bool) (l : list effect) : nat :=
  List.length (filter kind l).

Definition is_connect (e : effect) : bool :=
  match e with DbConnect => true | _ => false end.
Definition is_cursor (e : effect) : bool :=
  match e with DbCursor => true | _ => false end.
Definition is_execute (e : effect) : bool :=
  match e with DbExecute _ => true | _ => false end.
Definition is_fetchall (e : effect) : bool :=
  match e with DbFetchall => true | _ => false end.
Definition is_commit (e : effect) : bool :=
  match e with DbCommit => true | _ => false end.
Definition is_rollback (e : effect) : bool :=
  match e with DbRollback => true | _ => false end.
Definition is_cursor_close (e : effect) : bool :=
  match e with DbCursorClose => true | _ => false end.
Definition is_conn_close (e : effect) : bool :=
  match e with DbConnClose => true | _ => false end.

(** A call of the driver, as opposed to a frame or a sleep. *)
Definition is_db (e : effect) : bool :=
  match e with Yield _ | Sleep _ => false | _ => true end.

Definition is_yield (e : effect) : bool :=
  match e with Yield _ => true | _ => false end.

(** The [name] entries of a tool catalog. *)
Definition tool_names (catalog : pyval) : list pyval :=
  match catalog with
  | PList tools =>
      map (fun tool => match tool with
                       | PDict t => dict_get t "name" PNone
                       | _ => PNone
                       end) tools
  | _ => []
  end.

(** The envelope is a [tools/call] of [postgres_describe_table]. *)
Definition calls_describe (d : pydict) : bool :=
  eq_str (envelope_method d) "tools/call" &&
  match envelope_params d with
  | PDict p => eq_str (call_name p) "postgres_describe_table"
  | _ => false
  end.

Definition is_str (v : pyval) : bool :=
  match v with PStr _ => true | _ => false end.

(** What [request.json()] gave is the dict of a [tools/call]. *)
Definition is_tools_call (body : exn + pyval) : bool :=
  match body with
  | inr (PDict d) => eq_str (envelope_method d) "tools/call"
  | _ => false
  end.

(** The message with which a handler reports that it could not read the
    body as an envelope; [None] when it could. *)
Definition unreadable (body : exn + pyval) : option string :=
  match body with
  | inl e => if is_JSONDecodeError e then None else Some (exn_msg e)
  | inr (PDict _) => None
  | inr v => Some (exn_msg (no_attribute v "get"))
  end.

(** The keys of a dict, in order. *)
Definition dict_keys (d : pydict) : list string := map fst d.

(** ** Answers to a fault *)

(** What the [except] clauses of [sse_generator] yield for an exception
    raised while a POST is handled. *)
Definition sse_error_frame (e : exn) : frame :=
  if is_JSONDecodeError e
  then Data (rpc_error_no_id (-32700) "Parse error: Invalid JSON")
  else Data (rpc_error_no_id (-32603) ("Internal error: " ++ exn_msg e)).

(** The frame of a streamed [tools/call] whose [execute_query] had the
    outcome [o]. *)
Definition sse_call_frame (L : stdlib) (msg_id : pyval) (o : exn + pyval) : frame :=
  match o with
  | inr result => Data (success_response msg_id (tool_content L result))
  | inl e => sse_error_frame e
  end.

(** The document of the unary handler for an exception raised in its
    [try] block. *)
Definition http_error (message : string) : response :=
  JSONResponse (rpc_error_no_id (-32603) message) 500.

(** The document of the unary handler for the content of a success: a
    content that [JSONResponse] cannot serialise ends in the [except]
    clause. *)
Definition http_answer (L : stdlib) (content : pyval) : response :=
  if unserialisable content
  then http_error (render_message L content)
  else JSONResponse content 200.

(** The document of a unary [tools/call] whose [execute_query] had the
    outcome [o]. *)
Definition http_call_response (L : stdlib) (msg_id : pyval) (o : exn + pyval)
  : response :=
  match o with
  | inr result => http_answer L (success_response msg_id (tool_content L result))
  | inl e => http_error (exn_msg e)
  end.

(** The statement a [tools/call] hands to [execute_query], if any. *)
Definition query_of (describe : pyval -> string) (d : pydict) : option pyval :=
  if eq_str (envelope_method d) "tools/call" then
    match envelope_params d with
    | PDict p => tool_query describe (call_name p) (call_arguments p)
    | _ => None
    end
  else None.

(** [execute_query] returns, rather than raises, on the statement. *)
Definition returns (L : stdlib) (db : driver) (q : option pyval) : bool :=
  match q with
  | Some q =>
      match fst (run (execute_query L db q)) with
      | inr _ => true
      | inl _ => false
      end
  | None => true
  end.

(** * Properties *)

Section Properties.

Variable L : stdlib.
Variable db : driver.

(** ** Dictionaries *)

Lemma dict_get_absent (d : pydict) (k : string) (default : pyval) :
  dict_has d k = false -> dict_get d k default = default.
Proof.
  induction d as [|[k' v] d IH]; simpl; [reflexivity|].
  destruct (String.eqb k' k); simpl; [discriminate | exact IH].
Qed.

Lemma one_of_false_cons (v : pyval) (name : string) (names : list string) :
  one_of v (name :: names) = false ->
  eq_str v name = false /\ one_of v names = false.
Proof.
  unfold one_of; simpl. intros H. apply orb_false_iff in H. exact H.
Qed.

(** Splits [one_of v [n1; ...; nk] = false] into the [k] failed tests. *)
Ltac split_one_of H :=
  repeat
    (let H1 := fresh "Hne" in
     apply one_of_false_cons in H; destruct H as [H1 H]).

(** ** Transport selection *)

Lemma mcp_endpoint_streams (request : request) (st : state) :
  method request <> OPTIONS ->
  unary (accept request) = false \/ method request = GET ->
  exists hs,
    mcp_endpoint L db request st =
    (inr (StreamingResponse (sse_generator L db request) "text/event-stream" hs), st).
Proof.
  intros Hopt Hsse. unfold mcp_endpoint, unary in *.
  destruct (method request) eqn:Hm; try congruence.
  - rewrite orb_true_r. eexists. reflexivity.
  - destruct Hsse as [Hsse | Hsse]; [|discriminate].
    apply negb_false_iff in Hsse. rewrite Hsse. simpl. eexists. reflexivity.
Qed.

(** ** Keep-alive stream *)

(** C8. A GET request is answered by a stream of one capabilities frame,
    which has no [id] entry, followed by three ping comment frames, each
    written after a sleep of one second; then the generator returns.
    This holds whatever the header and the body are. *)
Theorem get_stream_capabilities_then_three_pings (a : option string) (body : exn + pyval) :
  let request := {| method := GET; accept := a; json := body |} in
  let capabilities :=
    [ ("jsonrpc", PStr "2.0");
      ("result",
       PDict [ ("protocolVersion", PStr "2024-11-05");
               ("capabilities", PDict [("tools", PDict [])]);
               ("serverInfo",
                PDict [ ("name", PStr "PostgreSQL MCP Server");
                        ("version", PStr "1.0.0") ]) ]) ] in
  (exists hs, run (mcp_endpoint L db request) =
              (inr (StreamingResponse (sse_generator L db request) "text/event-stream" hs),
               initial)) /\
  fst (run (sse_generator L db request)) = inr tt /\
  log (snd (run (sse_generator L db request))) =
    [ Yield (Data (PDict capabilities));
      Sleep 1; Yield (Text (": ping" ++ nl ++ nl));
      Sleep 1; Yield (Text (": ping" ++ nl ++ nl));
      Sleep 1; Yield (Text (": ping" ++ nl ++ nl)) ] /\
  dict_has capabilities "id" = false /\
  map (wire L) (frames (log (snd (run (sse_generator L db request))))) =
    [ "data: " ++ json_dumps L (PDict capabilities) ++ nl ++ nl;
      ": ping" ++ nl ++ nl; ": ping" ++ nl ++ nl; ": ping" ++ nl ++ nl ].
Proof.
  cbv zeta. split; [|repeat split; reflexivity].
  unfold run. apply mcp_endpoint_streams; simpl; [discriminate | now right].
Qed.

(** ** Unknown methods and unparseable bodies *)

Lemma sse_unknown_method (a : option string) (d : pydict) :
  one_of (envelope_method d) known_methods = false ->
  run (sse_generator L db (post a (inr (PDict d)))) =
  (inr tt,
   {| conn := None; cursor := None;
      log := [ Yield (Data (rpc_error (envelope_id d) (-32601)
                              ("Method not found: " ++ py_str L (envelope_method d)))) ] |}).
Proof.
  intros H. split_one_of H.
  unfold run, sse_generator, envelope_method in *. simpl.
  unfold try_except, bind, get, lift, py_get, ret. simpl.
  rewrite Hne, Hne0, Hne1, Hne2, Hne3. reflexivity.
Qed.

Lemma http_unknown_method (a : option string) (d : pydict) :
  unary a = true ->
  one_of (envelope_method d) known_methods = false ->
  run (mcp_endpoint L db (post a (inr (PDict d)))) = (inr ReturnsNone, initial).
Proof.
  intros Hu H. split_one_of H.
  unfold unary in Hu. apply negb_true_iff in Hu.
  unfold run, mcp_endpoint, envelope_method in *. simpl.
  rewrite Hu. simpl.
  unfold try_except, bind, get, lift, py_get, ret. simpl.
  rewrite Hne, Hne0, Hne1, Hne2, Hne3. reflexivity.
Qed.

(** C1. For an envelope whose method is none of the five known ones, the
    streamed handler yields one error frame with code -32601 and the
    message [Method not found: <method>], with the envelope's id; the
    unary handler has no branch for it and returns nothing at all. *)
Theorem unknown_method_streamed_error_unary_none (a : option string) (d : pydict) :
  unary a = true ->
  one_of (envelope_method d) known_methods = false ->
  run (sse_generator L db (post (Some "text/event-stream") (inr (PDict d)))) =
    (inr tt,
     {| conn := None; cursor := None;
        log := [ Yield (Data (rpc_error (envelope_id d) (-32601)
                                ("Method not found: " ++ py_str L (envelope_method d)))) ] |}) /\
  run (mcp_endpoint L db (post a (inr (PDict d)))) = (inr ReturnsNone, initial).
Proof.
  intros Hu H. split.
  - apply sse_unknown_method, H.
  - apply http_unknown_method; assumption.
Qed.

(** C2. When the body does not parse as JSON, the streamed handler
    yields one frame with code -32700 and the message
    [Parse error: Invalid JSON]; the unary handler answers with status
    500, code -32603 and the parser's own message. *)
Theorem invalid_json_streamed_32700_unary_32603 (a : option string) (msg : string) :
  unary a = true ->
  run (sse_generator L db (post (Some "text/event-stream") (inl (Exn JSONDecodeError msg)))) =
    (inr tt,
     {| conn := None; cursor := None;
        log := [ Yield (Data (rpc_error_no_id (-32700) "Parse error: Invalid JSON")) ] |}) /\
  run (mcp_endpoint L db (post a (inl (Exn JSONDecodeError msg)))) =
    (inr (JSONResponse (rpc_error_no_id (-32603) msg) 500), initial).
Proof.
  intros Hu. split; [reflexivity|].
  unfold unary in Hu. apply negb_true_iff in Hu.
  unfold run, mcp_endpoint. simpl. rewrite Hu. reflexivity.
Qed.

(** C10. A streamed POST whose body is a JSON object without a [method]
    entry is answered by one error frame with code -32601, the message
    [Method not found: ] and the envelope's id (1 when it has none); the
    generator returns normally and the frame is not the parse error. *)
Theorem sse_missing_method_is_method_not_found (a : option string) (d : pydict) :
  dict_has d "method" = false ->
  fst (run (sse_generator L db (post a (inr (PDict d))))) = inr tt /\
  frames (log (snd (run (sse_generator L db (post a (inr (PDict d))))))) =
    [ Data (rpc_error (envelope_id d) (-32601) "Method not found: ") ] /\
  (dict_has d "id" = false ->
   frames (log (snd (run (sse_generator L db (post a (inr (PDict d))))))) =
     [ Data (rpc_error (PInt 1) (-32601) "Method not found: ") ]) /\
  rpc_error (envelope_id d) (-32601) "Method not found: " <>
    rpc_error_no_id (-32700) "Parse error: Invalid JSON".
Proof.
  intros Hm.
  assert (Em : envelope_method d = PStr EmptyString)
    by (apply dict_get_absent, Hm).
  assert (H : one_of (envelope_method d) known_methods = false)
    by (rewrite Em; reflexivity).
  rewrite (sse_unknown_method a d H), Em. simpl.
  repeat split.
  - intros Hid. unfold envelope_id. rewrite (dict_get_absent _ _ _ Hid). reflexivity.
  - discriminate.
Qed.

(** ** The query executor *)

Ltac unfold_monad :=
  unfold try_finally, try_except, bind, ret, raise, lift, when, perform,
    set_conn, set_cursor, get_conn, get_cursor, Exception in *.

(** [execute_query] returns what its [try] block returns.  What the
    block raises it turns into a failure result, unless the connection
    is open and the [rollback] of the handler raises in its turn: then
    that exception leaves [execute_query]. *)
Lemma execute_query_absorbs (query : pyval) (st : state) :
  fst (execute_query L db query st) =
  match execute_query_try L db query (entered st) with
  | (inr result, _) => inr result
  | (inl e, st1) =>
      match conn st1, rollback db with
      | Some _, inl e' => inl e'
      | _, _ => inr (failure (exn_msg e))
      end
  end.
Proof.
  unfold execute_query, conn_rollback. unfold_monad. simpl. fold (entered st).
  destruct (execute_query_try L db query (entered st)) as [[e | result] st1]; simpl.
  - destruct st1 as [[c|] [cur|] l]; simpl;
      try destruct (rollback db) as [e'|[]]; reflexivity.
  - destruct st1 as [[c|] [cur|] l]; reflexivity.
Qed.

(** The [try] block returns one of the two success shapes. *)
Lemma execute_query_try_shapes (query : pyval) (st st' : state) (result : pyval) :
  execute_query_try L db query st = (inr result, st') ->
  (exists rows, result = read_result rows) \/
  (exists n, result = write_result L n).
Proof.
  unfold execute_query_try, get_db_connection, conn_cursor, cursor_execute,
    cursor_fetchall, conn_commit, startswith_read_keyword.
  unfold_monad. simpl.
  destruct (connect db); simpl; [discriminate|].
  destruct (open_cursor db); simpl; [discriminate|].
  destruct (execute db query) as [e | done]; simpl; [discriminate|].
  destruct query; simpl; try discriminate.
  destruct (read_like_test L s); simpl.
  - destruct (fetchall done); simpl; [discriminate|].
    intros H; inversion H; subst. left. eauto.
  - destruct (commit db); simpl; [discriminate|].
    intros H; inversion H; subst. right. eauto.
Qed.

(** The connection is open after the [try] block exactly when
    [connect] returned. *)
Lemma execute_query_try_conn (query : pyval) (st : state) :
  conn (snd (execute_query_try L db query (entered st))) =
  match connect db with inr _ => Some Connection | inl _ => None end.
Proof.
  unfold execute_query_try, get_db_connection, conn_cursor, cursor_execute,
    cursor_fetchall, conn_commit, startswith_read_keyword, entered.
  unfold_monad. simpl.
  destruct (connect db) as [?|[]]; simpl; [reflexivity|].
  destruct (open_cursor db) as [?|[]]; simpl; [reflexivity|].
  destruct (execute db query) as [?|done]; simpl; [reflexivity|].
  destruct query; simpl; try reflexivity.
  destruct (read_like_test L s); simpl.
  - destruct (fetchall done); reflexivity.
  - destruct (commit db) as [?|[]]; reflexivity.
Qed.

(** [execute_query] returns a result of one of the three shapes, or
    raises what the [rollback] of an open connection raised. *)
Lemma execute_query_shapes (query : pyval) (st : state) :
  (exists rows, fst (execute_query L db query st) = inr (read_result rows)) \/
  (exists n, fst (execute_query L db query st) = inr (write_result L n)) \/
  (exists msg, fst (execute_query L db query st) = inr (failure msg)) \/
  (exists e, fst (execute_query L db query st) = inl e /\
             rollback db = inl e /\ connect db = inr tt).
Proof.
  rewrite execute_query_absorbs.
  pose proof (execute_query_try_conn query st) as Hc.
  destruct (execute_query_try L db query (entered st)) as [[e | result] st1] eqn:E;
    simpl in Hc.
  - destruct (conn st1) as [c|].
    + destruct (rollback db) as [e'|[]].
      * right; right; right. exists e'. repeat split.
        destruct (connect db) as [?|[]]; [discriminate Hc | reflexivity].
      * right; right; left. eauto.
    + right; right; left. eauto.
  - destruct (execute_query_try_shapes _ _ _ _ E) as [[rows ->] | [n ->]].
    + left. eauto.
    + right; left. eauto.
Qed.

Lemma frames_app (l1 l2 : list effect) :
  frames (l1 ++ l2) = (frames l1 ++ frames l2)%list.
Proof.
  induction l1 as [|x l1 IH]; simpl; [reflexivity|].
  destruct x; simpl; rewrite IH; reflexivity.
Qed.

Lemma issued_app (l1 l2 : list effect) :
  issued (l1 ++ l2) = (issued l1 ++ issued l2)%list.
Proof.
  induction l1 as [|x l1 IH]; simpl; [reflexivity|].
  destruct x; simpl; rewrite IH; reflexivity.
Qed.

Ltac unfold_executor :=
  unfold execute_query, execute_query_try, get_db_connection, conn_cursor,
    cursor_execute, cursor_fetchall, conn_commit, conn_rollback,
    startswith_read_keyword in *;
  unfold_monad; simpl.

(** Case analysis on every outcome the driver can give. *)
Ltac driver_cases query :=
  let close := first [reflexivity | congruence] in
  unfold initial; simpl;
  destruct (rollback db) as [?|[]]; simpl;
  (destruct (connect db) as [?|[]]; simpl; [close|];
   destruct (open_cursor db) as [?|[]]; simpl; [close|];
   destruct (execute db query) as [?|?done]; simpl; [close|];
   destruct query; simpl; try close;
   destruct (read_like_test _ _); simpl;
   [ destruct (fetchall done); close
   | destruct (commit db) as [?|[]]; close ]).

(** [execute_query] writes nothing to the stream, and once a cursor is
    open it hands exactly its argument to [cursor.execute]. *)
Lemma execute_query_trace (query : pyval) :
  frames (log (snd (execute_query L db query initial))) = [] /\
  (connect db = inr tt -> open_cursor db = inr tt ->
   issued (log (snd (execute_query L db query initial))) = [query]).
Proof.
  unfold_executor. split.
  - driver_cases query.
  - intros Hc Ho. driver_cases query.
Qed.

(** ** Tool calls *)

Ltac unfold_handler :=
  unfold run, sse_generator, mcp_endpoint, json_response, envelope_method,
    envelope_params, envelope_id, call_name, call_arguments, post, unary in *;
  simpl; unfold get, py_get, yield in *; unfold_monad; simpl.

(** The documents and frames the handlers build can be serialised,
    but for the id they echo. *)
Lemma error_document_serialisable (code : Z) (message : string) :
  unserialisable
    (PDict [ ("jsonrpc", PStr "2.0"); ("error", error_object code message) ]) = false.
Proof. reflexivity. Qed.

Lemma unserialisable_success_response (msg_id result : pyval) :
  unserialisable (success_response msg_id result) =
  unserialisable msg_id || unserialisable result.
Proof.
  transitivity (false || (unserialisable msg_id || (unserialisable result || false)));
    [reflexivity | rewrite orb_false_r; reflexivity].
Qed.

Lemma tool_content_serialisable (result : pyval) :
  unserialisable (tool_content L result) = false.
Proof. reflexivity. Qed.

Lemma unserialisable_tool_response (msg_id result : pyval) :
  unserialisable (success_response msg_id (tool_content L result)) =
  unserialisable msg_id.
Proof.
  rewrite unserialisable_success_response, tool_content_serialisable.
  apply orb_false_r.
Qed.

(** What the unary handler returns once it has a content to answer
    with. *)
Lemma json_response_in_try (content : pyval) (st : state) :
  try_except (json_response L content 200) Exception
    (fun e =>
       json_response L
         (PDict [ ("jsonrpc", PStr "2.0");
                  ("error", error_object (-32603) (exn_msg e)) ]) 500) st =
  (inr (http_answer L content), st).
Proof.
  unfold try_except, json_response, http_answer, http_error, rpc_error_no_id,
    error_object, raise, ret, Exception.
  destruct (unserialisable content); [|reflexivity].
  change (unserialisable _) with false. reflexivity.
Qed.

(** A streamed call of a known tool runs [execute_query] on the tool's
    statement and yields one frame for its outcome. *)
Lemma sse_tools_call (a : option string) (d p : pydict) (q : pyval)
      (o : exn + pyval) (st' : state) :
  envelope_method d = PStr "tools/call" ->
  envelope_params d = PDict p ->
  tool_query (sse_describe_query L) (call_name p) (call_arguments p) = Some q ->
  execute_query L db q initial = (o, st') ->
  run (sse_generator L db (post a (inr (PDict d)))) =
  (inr tt,
   {| conn := conn st'; cursor := cursor st';
      log := log st' ++ [ Yield (sse_call_frame L (envelope_id d) o) ] |}).
Proof.
  intros Hm Hp Hq E.
  unfold tool_query in Hq. unfold_handler.
  rewrite Hm; simpl. rewrite Hp; simpl.
  destruct (eq_str (dict_get p "name" (PStr EmptyString)) "postgres_list_tables").
  { inversion Hq; subst q. rewrite E.
    destruct o as [e | result]; simpl; [|reflexivity].
    unfold sse_error_frame. destruct (is_JSONDecodeError e); reflexivity. }
  destruct (eq_str (dict_get p "name" (PStr EmptyString)) "postgres_describe_table").
  { destruct (dict_get p "arguments" (PDict [])); try discriminate.
    inversion Hq; subst q. simpl. rewrite E.
    destruct o as [e | result]; simpl; [|reflexivity].
    unfold sse_error_frame. destruct (is_JSONDecodeError e); reflexivity. }
  destruct (eq_str (dict_get p "name" (PStr EmptyString)) "postgres_query").
  { destruct (dict_get p "arguments" (PDict [])); try discriminate.
    inversion Hq; subst q. simpl. rewrite E.
    destruct o as [e | result]; simpl; [|reflexivity].
    unfold sse_error_frame. destruct (is_JSONDecodeError e); reflexivity. }
  discriminate.
Qed.

(** The same call on the unary transport. *)
Lemma http_tools_call (a : option string) (d p : pydict) (q : pyval)
      (o : exn + pyval) (st' : state) :
  unary a = true ->
  envelope_method d = PStr "tools/call" ->
  envelope_params d = PDict p ->
  tool_query (http_describe_query L) (call_name p) (call_arguments p) = Some q ->
  execute_query L db q initial = (o, st') ->
  run (mcp_endpoint L db (post a (inr (PDict d)))) =
  (inr (http_call_response L (envelope_id d) o), st').
Proof.
  intros Hu Hm Hp Hq E.
  unfold tool_query in Hq. unfold http_call_response. unfold_handler.
  apply negb_true_iff in Hu. rewrite Hu; simpl.
  rewrite Hm; simpl. rewrite Hp; simpl.
  destruct (eq_str (dict_get p "name" (PStr EmptyString)) "postgres_list_tables").
  { inversion Hq; subst q. rewrite E.
    destruct o as [e | result]; simpl; [reflexivity|].
    destruct (unserialisable _) eqn:U; unfold http_answer; rewrite U; reflexivity. }
  destruct (eq_str (dict_get p "name" (PStr EmptyString)) "postgres_describe_table").
  { destruct (dict_get p "arguments" (PDict [])); try discriminate.
    inversion Hq; subst q. simpl. rewrite E.
    destruct o as [e | result]; simpl; [reflexivity|].
    destruct (unserialisable _) eqn:U; unfold http_answer; rewrite U; reflexivity. }
  destruct (eq_str (dict_get p "name" (PStr EmptyString)) "postgres_query").
  { destruct (dict_get p "arguments" (PDict [])); try discriminate.
    inversion Hq; subst q. simpl. rewrite E.
    destruct o as [e | result]; simpl; [reflexivity|].
    destruct (unserialisable _) eqn:U; unfold http_answer; rewrite U; reflexivity. }
  discriminate.
Qed.

Lemma sse_unknown_tool (a : option string) (d p : pydict) :
  envelope_method d = PStr "tools/call" ->
  envelope_params d = PDict p ->
  one_of (call_name p) known_tools = false ->
  run (sse_generator L db (post a (inr (PDict d)))) =
    (inr tt,
     {| conn := None; cursor := None;
        log := [ Yield (Data (success_response (envelope_id d)
                                (tool_content L
                                   (failure ("Unknown tool: " ++ py_str L (call_name p)))))) ] |}).
Proof.
  intros Hm Hp H. split_one_of H.
  unfold_handler. rewrite Hm; simpl. rewrite Hp; simpl.
  rewrite Hne, Hne0, Hne1. reflexivity.
Qed.

Lemma http_unknown_tool (a : option string) (d p : pydict) :
  unary a = true ->
  envelope_method d = PStr "tools/call" ->
  envelope_params d = PDict p ->
  one_of (call_name p) known_tools = false ->
  run (mcp_endpoint L db (post a (inr (PDict d)))) =
    (inr (http_answer L
            (success_response (envelope_id d)
               (tool_content L (failure ("Unknown tool: " ++ py_str L (call_name p)))))),
     initial).
Proof.
  intros Hu Hm Hp H. split_one_of H.
  unfold_handler. apply negb_true_iff in Hu. rewrite Hu; simpl.
  rewrite Hm; simpl. rewrite Hp; simpl.
  rewrite Hne, Hne0, Hne1. simpl.
  destruct (unserialisable _) eqn:U; unfold http_answer; rewrite U; reflexivity.
Qed.

(** C5, as amended. A [tools/call] envelope naming none of the three
    tools is answered by a success envelope (a [result], with the
    envelope's id) whose text is the serialised tool result
    [{success: False, error: "Unknown tool: <name>"}]: always so on the
    streamed transport, and on the unary transport when [JSONResponse]
    can serialise the id.  When it cannot, the unary answer is the
    document of the [except] clause, 500 with code -32603 and no id.
    The database is not touched. *)
Theorem unknown_tool_is_reported_in_success_envelope
        (a : option string) (d p : pydict) :
  envelope_method d = PStr "tools/call" ->
  envelope_params d = PDict p ->
  one_of (call_name p) known_tools = false ->
  let result :=
    PDict [ ("success", PBool false);
            ("error", PStr ("Unknown tool: " ++ py_str L (call_name p))) ] in
  let response :=
    PDict [ ("jsonrpc", PStr "2.0");
            ("id", envelope_id d);
            ("result",
             PDict [ ("content",
                      PList [ PDict [ ("type", PStr "text");
                                      ("text", PStr (json_dumps_indent2 L result)) ] ]) ]) ] in
  run (sse_generator L db (post a (inr (PDict d)))) =
    (inr tt, {| conn := None; cursor := None; log := [Yield (Data response)] |}) /\
  (unary a = true ->
   run (mcp_endpoint L db (post a (inr (PDict d)))) =
     (inr (if unserialisable (envelope_id d)
           then JSONResponse
                  (PDict [ ("jsonrpc", PStr "2.0");
                           ("error",
                            PDict [ ("code", PInt (-32603));
                                    ("message", PStr (render_message L response)) ]) ])
                  500
           else JSONResponse response 200),
      initial)).
Proof.
  intros Hm Hp H. cbv zeta. split.
  - apply sse_unknown_tool; assumption.
  - intros Hu. rewrite (http_unknown_tool a d p Hu Hm Hp H).
    unfold http_answer. rewrite unserialisable_tool_response. reflexivity.
Qed.

(** C4. What the [try] block of [execute_query] raises does not always
    become a tool result.  When the connection never opened, or the
    [rollback] of the handler returns, [execute_query] returns
    [{success: False, error: str(e)}] and a [tools/call] gives a success
    envelope around it.  When the [rollback] raises in its turn, that
    exception leaves [execute_query]: the streamed handler yields the
    frame of its [except] clause and the unary handler answers 500. *)
Theorem query_fault_absorbed_unless_rollback_raises
        (a : option string) (d p : pydict) (e : exn) :
  envelope_method d = PStr "tools/call" ->
  envelope_params d = PDict p ->
  let failed := PDict [ ("success", PBool false); ("error", PStr (exn_msg e)) ] in
  let envelope :=
    PDict [ ("jsonrpc", PStr "2.0");
            ("id", envelope_id d);
            ("result",
             PDict [ ("content",
                      PList [ PDict [ ("type", PStr "text");
                                      ("text", PStr (json_dumps_indent2 L failed)) ] ]) ]) ] in
  (forall q,
     fst (execute_query_try L db q initial) = inl e ->
     fst (run (execute_query L db q)) =
       match connect db, rollback db with
       | inr _, inl e' => inl e'
       | _, _ => inr failed
       end) /\
  (forall q,
     tool_query (sse_describe_query L) (call_name p) (call_arguments p) = Some q ->
     fst (execute_query_try L db q initial) = inl e ->
     fst (run (sse_generator L db (post a (inr (PDict d))))) = inr tt /\
     frames (log (snd (run (sse_generator L db (post a (inr (PDict d))))))) =
       [ match connect db, rollback db with
         | inr _, inl e' =>
             if is_JSONDecodeError e'
             then Data (PDict [ ("jsonrpc", PStr "2.0");
                                ("error",
                                 PDict [ ("code", PInt (-32700));
                                         ("message", PStr "Parse error: Invalid JSON") ]) ])
             else Data (PDict [ ("jsonrpc", PStr "2.0");
                                ("error",
                                 PDict [ ("code", PInt (-32603));
                                         ("message",
                                          PStr ("Internal error: " ++ exn_msg e')) ]) ])
         | _, _ => Data envelope
         end ]) /\
  (forall q,
     unary a = true ->
     tool_query (http_describe_query L) (call_name p) (call_arguments p) = Some q ->
     fst (execute_query_try L db q initial) = inl e ->
     fst (run (mcp_endpoint L db (post a (inr (PDict d))))) =
       inr match connect db, rollback db with
           | inr _, inl e' =>
               JSONResponse
                 (PDict [ ("jsonrpc", PStr "2.0");
                          ("error",
                           PDict [ ("code", PInt (-32603));
                                   ("message", PStr (exn_msg e')) ]) ])
                 500
           | _, _ =>
               if unserialisable (envelope_id d)
               then JSONResponse
                      (PDict [ ("jsonrpc", PStr "2.0");
                               ("error",
                                PDict [ ("code", PInt (-32603));
                                        ("message", PStr (render_message L envelope)) ]) ])
                      500
               else JSONResponse envelope 200
           end).
Proof.
  intros Hm Hp. cbv zeta.
  assert (outcome : forall q,
             fst (execute_query_try L db q initial) = inl e ->
             fst (run (execute_query L db q)) =
               match connect db, rollback db with
               | inr _, inl e' => inl e'
               | _, _ => inr (failure (exn_msg e))
               end).
  { intros q H. unfold run. rewrite execute_query_absorbs.
    pose proof (execute_query_try_conn q initial) as Hc.
    change (entered initial) with initial in *.
    destruct (execute_query_try L db q initial) as [[e0 | r] st1]; simpl in *;
      [|discriminate H].
    inversion H; subst e0. rewrite Hc.
    destruct (connect db) as [?|[]]; [reflexivity|].
    destruct (rollback db) as [?|[]]; reflexivity. }
  split; [exact outcome|]. split.
  - intros q Hq He.
    destruct (execute_query L db q initial) as [o st'] eqn:E.
    pose proof (outcome q He) as Ho. unfold run in Ho. rewrite E in Ho. simpl in Ho.
    rewrite (sse_tools_call a d p q o st' Hm Hp Hq E); simpl.
    split; [reflexivity|].
    rewrite frames_app.
    pose proof (proj1 (execute_query_trace q)) as Hf. rewrite E in Hf.
    simpl in Hf. rewrite Hf. simpl. subst o.
    destruct (connect db) as [?|[]]; [reflexivity|].
    destruct (rollback db) as [e'|[]]; reflexivity.
  - intros q Hu Hq He.
    destruct (execute_query L db q initial) as [o st'] eqn:E.
    pose proof (outcome q He) as Ho. unfold run in Ho. rewrite E in Ho. simpl in Ho.
    rewrite (http_tools_call a d p q o st' Hu Hm Hp Hq E); simpl. subst o.
    assert (absorbed :
              http_call_response L (envelope_id d) (inr (failure (exn_msg e))) =
              if unserialisable (envelope_id d)
              then JSONResponse
                     (PDict [ ("jsonrpc", PStr "2.0");
                              ("error",
                               PDict [ ("code", PInt (-32603));
                                       ("message",
                                        PStr (render_message L
                                                (success_response (envelope_id d)
                                                   (tool_content L (failure (exn_msg e)))))) ]) ])
                     500
              else JSONResponse
                     (success_response (envelope_id d)
                        (tool_content L (failure (exn_msg e)))) 200).
    { unfold http_call_response, http_answer.
      rewrite unserialisable_tool_response. reflexivity. }
    destruct (connect db) as [?|[]]; [rewrite absorbed; reflexivity|].
    destruct (rollback db) as [e'|[]]; [reflexivity | rewrite absorbed; reflexivity].
Qed.

(** C9. A tool result, whether [execute_query] returned it or the
    unknown-tool branch built it, has exactly one of [data], [message]
    and [error]; in particular [error] never comes with [data] or
    [message].  [execute_query] returns such a result unless the
    [rollback] of an open connection raises, and then it returns none. *)
Theorem tool_result_has_one_shape (query : pyval) (st : state) (tool_name : pyval) :
  ((exists result,
      fst (execute_query L db query st) = inr result /\
      (populated result = (true, false, false) \/
       populated result = (false, true, false) \/
       populated result = (false, false, true))) \/
   (exists e,
      fst (execute_query L db query st) = inl e /\
      rollback db = inl e /\ connect db = inr tt)) /\
  populated (failure ("Unknown tool: " ++ py_str L tool_name)) = (false, false, true).
Proof.
  split; [|reflexivity].
  destruct (execute_query_shapes query st) as [[rows H] | [[n H] | [[msg H] | H]]];
    [left | left | left | right; exact H];
    rewrite H; eexists; (split; [reflexivity|]); auto.
Qed.

(** The calls of a known tool, with the outcome of [execute_query]
    left open. *)
Lemma sse_tools_call_ex (a : option string) (d p : pydict) (q : pyval) :
  envelope_method d = PStr "tools/call" ->
  envelope_params d = PDict p ->
  tool_query (sse_describe_query L) (call_name p) (call_arguments p) = Some q ->
  exists o st',
    execute_query L db q initial = (o, st') /\
    run (sse_generator L db (post a (inr (PDict d)))) =
    (inr tt,
     {| conn := conn st'; cursor := cursor st';
        log := log st' ++ [ Yield (sse_call_frame L (envelope_id d) o) ] |}).
Proof.
  intros Hm Hp Hq. destruct (execute_query L db q initial) as [o st'] eqn:E.
  exists o, st'. split; [reflexivity|]. apply (sse_tools_call a d p q); assumption.
Qed.

Lemma http_tools_call_ex (a : option string) (d p : pydict) (q : pyval) :
  unary a = true ->
  envelope_method d = PStr "tools/call" ->
  envelope_params d = PDict p ->
  tool_query (http_describe_query L) (call_name p) (call_arguments p) = Some q ->
  exists o st',
    execute_query L db q initial = (o, st') /\
    run (mcp_endpoint L db (post a (inr (PDict d)))) =
    (inr (http_call_response L (envelope_id d) o), st').
Proof.
  intros Hu Hm Hp Hq. destruct (execute_query L db q initial) as [o st'] eqn:E.
  exists o, st'. split; [reflexivity|]. apply (http_tools_call a d p q); assumption.
Qed.

(** ** Read-like statements *)

Ltac each_char c := destruct c as [[] [] [] [] [] [] [] []].

Lemma isspace_upper_char (c : ascii) : isspace (upper_char c) = isspace c.
Proof. each_char c; reflexivity. Qed.

Lemma upper_char_cases (c : ascii) :
  upper_char c = c \/
  (is_upper_letter (upper_char c) = true /\ c = lower_of (upper_char c)).
Proof.
  each_char c; first [left; reflexivity | right; split; reflexivity].
Qed.

Lemma upper_char_of_upper_letter (k : ascii) :
  is_upper_letter k = true -> upper_char k = k /\ upper_char (lower_of k) = k.
Proof.
  each_char k; intros H; vm_compute in H; try discriminate H; split; reflexivity.
Qed.

Lemma same_letter_upper (c k : ascii) :
  same_letter c k <-> upper_char c = upper_char k.
Proof.
  split.
  - intros [-> | [[Hk ->] | [Hc ->]]]; [reflexivity | |].
    + destruct (upper_char_of_upper_letter k Hk) as [E1 E2]. congruence.
    + destruct (upper_char_of_upper_letter c Hc) as [E1 E2]. congruence.
  - intros E.
    destruct (upper_char_cases c) as [Ec | [Uc Lc]],
             (upper_char_cases k) as [Ek | [Uk Lk]].
    + left. congruence.
    + right; right. rewrite <- E, Ec in Uk, Lk. auto.
    + right; left. rewrite E, Ek in Uc, Lc. auto.
    + left. congruence.
Qed.

Lemma caseless_upper (w k : string) : caseless w k <-> upper w = upper k.
Proof.
  revert k. induction w as [|c w IH]; intros [|d k]; simpl;
    try (split; [tauto | discriminate]); [tauto|].
  rewrite same_letter_upper, IH. split.
  - intros [-> ->]. reflexivity.
  - intros H. inversion H. auto.
Qed.

Lemma upper_app (s t : string) : upper (s ++ t) = upper s ++ upper t.
Proof. induction s as [|c s IH]; simpl; [|rewrite IH]; reflexivity. Qed.

Lemma append_assoc (s t u : string) : (s ++ t) ++ u = s ++ t ++ u.
Proof. induction s as [|c s IH]; simpl; [|rewrite IH]; reflexivity. Qed.

Lemma prefix_append (p s : string) :
  String.prefix p s = true <-> exists t, s = p ++ t.
Proof.
  revert s. induction p as [|a p IH]; intros s.
  - split; [exists s; reflexivity | intros _; destruct s; reflexivity].
  - destruct s as [|b s]; simpl.
    + split; [discriminate | intros [t H]; discriminate H].
    + destruct (ascii_dec a b) as [-> | Hab].
      * rewrite IH. split; intros [t H]; exists t; [rewrite H | inversion H]; reflexivity.
      * split; [discriminate | intros [t H]; inversion H; congruence].
Qed.

(** A prefix of [upper s] is the upper case of a prefix of [s]. *)
Lemma upper_split (s k t : string) :
  upper s = k ++ t -> exists w r, s = w ++ r /\ upper w = k.
Proof.
  revert s. induction k as [|d k IH]; intros s H.
  - exists EmptyString, s. split; reflexivity.
  - destruct s as [|c s]; simpl in H; [discriminate|].
    inversion H as [[Hc Hs]].
    destruct (IH s Hs) as (w & r & -> & Hw).
    exists (String c w), r. split; [reflexivity|].
    simpl. f_equal; assumption.
Qed.

Lemma no_space_upper (w : string) : no_space (upper w) -> no_space w.
Proof.
  induction w as [|c w IH]; simpl; [trivial|].
  rewrite isspace_upper_char. tauto.
Qed.

Lemma lstrip_decompose (s : string) :
  exists ws, all_space ws /\ s = ws ++ lstrip s.
Proof.
  induction s as [|c s (ws & Hws & E)]; simpl.
  - exists EmptyString. split; [exact I | reflexivity].
  - destruct (isspace c) eqn:Hc.
    + exists (String c ws). split; [split; assumption|].
      simpl. rewrite <- E. reflexivity.
    + exists EmptyString. split; [exact I | reflexivity].
Qed.

Lemma lstrip_leading_space (ws s : string) :
  all_space ws -> lstrip (ws ++ s) = lstrip s.
Proof.
  induction ws as [|c ws IH]; simpl; [reflexivity|].
  intros [-> H]. apply IH, H.
Qed.

Lemma rstrip_is_prefix (s : string) : exists t, s = rstrip s ++ t.
Proof.
  induction s as [|c s (t & E)]; simpl.
  - exists EmptyString. reflexivity.
  - destruct (rstrip s) as [|c' r] eqn:R.
    + destruct (isspace c).
      * exists (String c s). reflexivity.
      * exists s. reflexivity.
    + exists t. simpl. rewrite E at 1. reflexivity.
Qed.

Lemma rstrip_keeps_word (w rest : string) :
  no_space w -> rstrip (w ++ rest) = w ++ rstrip rest.
Proof.
  induction w as [|c w IH]; simpl; [reflexivity|].
  intros [Hc Hw]. rewrite (IH Hw), Hc.
  destruct (w ++ rstrip rest); reflexivity.
Qed.

Lemma read_keyword_facts (k : string) :
  In k read_keywords ->
  upper k = k /\ no_space k /\ exists c k', k = String c k'.
Proof.
  simpl. intros [<- | [<- | [<- | [<- | []]]]];
    (split; [reflexivity | split; [simpl; tauto | eauto]]).
Qed.

(** The test of [execute_query] agrees with the specification's
    description of a read-like statement. *)
Lemma is_read_like_spec (query : string) :
  is_read_like query = true <-> spec_read_like query.
Proof.
  unfold is_read_like, startswith_any, spec_read_like. rewrite existsb_exists.
  split.
  - intros (k & Hk & Hp). unfold startswith, strip in Hp.
    apply prefix_append in Hp. destruct Hp as [t Hp].
    apply upper_split in Hp. destruct Hp as (w & r & E & Hw).
    destruct (rstrip_is_prefix (lstrip query)) as [t' Et].
    destruct (lstrip_decompose query) as (ws & Hws & Eq).
    exists ws, w, (r ++ t'), k. repeat split; try assumption.
    + rewrite Eq at 1. rewrite Et at 1. rewrite E. rewrite append_assoc. reflexivity.
    + apply caseless_upper. destruct (read_keyword_facts k Hk) as [-> _]. exact Hw.
  - intros (ws & w & rest & k & -> & Hws & Hk & Hc).
    exists k. split; [exact Hk|].
    destruct (read_keyword_facts k Hk) as (Uk & Nk & c & k' & Ek).
    apply caseless_upper in Hc. rewrite Uk in Hc.
    assert (Nw : no_space w) by (apply no_space_upper; rewrite Hc; exact Nk).
    unfold startswith, strip. rewrite (lstrip_leading_space _ _ Hws).
    assert (El : lstrip (w ++ rest) = w ++ rest).
    { destruct w as [|c0 w0]; [rewrite Ek in Hc; discriminate|].
      simpl. simpl in Nw. destruct Nw as [-> _]. reflexivity. }
    rewrite El, (rstrip_keeps_word _ _ Nw), upper_app, Hc.
    apply prefix_append. eauto.
Qed.

Lemma isspace_is_ascii (c : ascii) : isspace c = true -> is_ascii_char c = true.
Proof. each_char c; intros H; first [reflexivity | discriminate H]. Qed.

Lemma upper_char_is_ascii (c : ascii) :
  is_ascii_char (upper_char c) = is_ascii_char c.
Proof. each_char c; reflexivity. Qed.

Lemma all_space_is_ascii (ws : string) : all_space ws -> is_ascii ws = true.
Proof.
  induction ws as [|c ws IH]; simpl; [reflexivity|].
  intros [Hc H]. rewrite (isspace_is_ascii c Hc), (IH H). reflexivity.
Qed.

Lemma upper_is_ascii (s : string) : is_ascii (upper s) = is_ascii s.
Proof.
  induction s as [|c s IH]; simpl; [reflexivity|].
  rewrite upper_char_is_ascii, IH. reflexivity.
Qed.

Lemma ascii_prefix_app (s t : string) :
  is_ascii s = true -> ascii_prefix (s ++ t) = s ++ ascii_prefix t.
Proof.
  induction s as [|c s IH]; simpl; [reflexivity|].
  intros H. apply andb_true_iff in H. destruct H as [Hc H].
  rewrite Hc, (IH H). reflexivity.
Qed.

(** A statement that begins, after ASCII whitespace, with a keyword in
    any mix of ASCII cases passes the test of line 108, whatever
    characters follow. *)
Lemma spec_read_like_passes_test (query : string) :
  spec_read_like query -> read_like_test L query = true.
Proof.
  intros H. unfold read_like_test.
  destruct (is_ascii query); [apply is_read_like_spec, H|].
  destruct H as (ws & w & rest & k & -> & Hws & Hk & Hc).
  assert (Hw : is_ascii w = true).
  { destruct (read_keyword_facts k Hk) as (Uk & _).
    apply caseless_upper in Hc. rewrite Uk in Hc.
    rewrite <- upper_is_ascii, Hc.
    simpl in Hk. destruct Hk as [<- | [<- | [<- | [<- | []]]]]; reflexivity. }
  rewrite (ascii_prefix_app _ _ (all_space_is_ascii ws Hws)),
          (ascii_prefix_app _ _ Hw).
  assert (Hs : is_read_like (ws ++ w ++ ascii_prefix rest) = true).
  { apply is_read_like_spec. exists ws, w, (ascii_prefix rest), k. auto. }
  rewrite Hs. reflexivity.
Qed.



(** C3. For [postgres_describe_table], the statement the streamed
    handler hands to the database selects [column_name], [data_type],
    [is_nullable] and [column_default] of the named table in ordinal
    order; the statement of the unary handler leaves [column_default]
    out. *)
Theorem describe_table_statement_per_transport
        (a : option string) (d p args : pydict) :
  connect db = inr tt ->
  open_cursor db = inr tt ->
  unary a = true ->
  envelope_method d = PStr "tools/call" ->
  envelope_params d = PDict p ->
  call_name p = PStr "postgres_describe_table" ->
  call_arguments p = PDict args ->
  let table := py_str L (dict_get args "table_name" (PStr EmptyString)) in
  issued (log (snd (run (sse_generator L db
                           (post (Some "text/event-stream") (inr (PDict d))))))) =
    [ PStr (nl ++ spaces 36
            ++ "SELECT column_name, data_type, is_nullable, column_default"
            ++ nl ++ spaces 36 ++ "FROM information_schema.columns"
            ++ nl ++ spaces 36 ++ "WHERE table_name = '" ++ table ++ "'"
            ++ nl ++ spaces 36 ++ "ORDER BY ordinal_position"
            ++ nl ++ spaces 32) ] /\
  issued (log (snd (run (mcp_endpoint L db (post a (inr (PDict d))))))) =
    [ PStr ("SELECT column_name, data_type, is_nullable FROM information_schema.columns WHERE table_name = '"
            ++ table ++ "' ORDER BY ordinal_position") ].
Proof.
  intros Hc Ho Hu Hm Hp Hn Ha table.
  split.
  - set (q := PStr (sse_describe_query L (dict_get args "table_name" (PStr EmptyString)))).
    assert (Hq : tool_query (sse_describe_query L) (call_name p) (call_arguments p) = Some q)
      by (rewrite Hn, Ha; reflexivity).
    destruct (sse_tools_call_ex (Some "text/event-stream") d p q Hm Hp Hq)
      as (o & st' & E & R).
    rewrite R; simpl. rewrite issued_app; simpl.
    pose proof (proj2 (execute_query_trace q) Hc Ho) as Hi.
    rewrite E in Hi; simpl in Hi. rewrite Hi. reflexivity.
  - set (q := PStr (http_describe_query L (dict_get args "table_name" (PStr EmptyString)))).
    assert (Hq : tool_query (http_describe_query L) (call_name p) (call_arguments p) = Some q)
      by (rewrite Hn, Ha; reflexivity).
    destruct (http_tools_call_ex a d p q Hu Hm Hp Hq) as (o & st' & E & R).
    rewrite R; simpl.
    pose proof (proj2 (execute_query_trace q) Hc Ho) as Hi.
    rewrite E in Hi; simpl in Hi. rewrite Hi. reflexivity.
Qed.

(** ** The id of the response *)

Lemma eq_str_true (v : pyval) (s : string) : eq_str v s = true -> v = PStr s.
Proof.
  destruct v; simpl; try discriminate.
  intros H. apply String.eqb_eq in H. congruence.
Qed.

Lemma success_response_echoes_id (d : pydict) (result : pyval) :
  echoes_id d (success_response (envelope_id d) result).
Proof. eexists. repeat split. Qed.

Lemma rpc_error_echoes_id (d : pydict) (code : Z) (message : string) :
  echoes_id d (rpc_error (envelope_id d) code message).
Proof. eexists. repeat split. Qed.

(** What [faultless] gives for a [tools/call]: the tool is unknown, or
    its statement can be built, on either transport. *)
Lemma faultless_call (d : pydict) :
  faultless d = true ->
  envelope_method d = PStr "tools/call" ->
  exists p,
    envelope_params d = PDict p /\
    (one_of (call_name p) known_tools = false \/
     ((exists q, tool_query (sse_describe_query L) (call_name p) (call_arguments p) = Some q) /\
      (exists q, tool_query (http_describe_query L) (call_name p) (call_arguments p) = Some q))).
Proof.
  unfold faultless. intros H Hm. rewrite Hm in H. simpl in H.
  destruct (envelope_params d) as [| | | | |p|]; try discriminate.
  exists p. split; [reflexivity|].
  unfold one_of, tool_query in *. simpl in *.
  destruct (eq_str (call_name p) "postgres_list_tables"); [right; eauto|].
  destruct (eq_str (call_name p) "postgres_describe_table"); simpl in *.
  { destruct (call_arguments p); try discriminate. right; eauto. }
  destruct (eq_str (call_name p) "postgres_query"); simpl in *.
  { destruct (call_arguments p); try discriminate. right; eauto. }
  left. reflexivity.
Qed.

(** The statement of a [tools/call], read off the envelope. *)
Lemma query_of_call (describe : pyval -> string) (d p : pydict) :
  envelope_method d = PStr "tools/call" ->
  envelope_params d = PDict p ->
  query_of describe d = tool_query describe (call_name p) (call_arguments p).
Proof. intros Hm Hp. unfold query_of. rewrite Hm, Hp. reflexivity. Qed.

(** When [execute_query] returns, a streamed call of a known tool
    yields the success envelope around its result. *)
Lemma sse_tools_call_frames (a : option string) (d p : pydict) (q : pyval) :
  envelope_method d = PStr "tools/call" ->
  envelope_params d = PDict p ->
  tool_query (sse_describe_query L) (call_name p) (call_arguments p) = Some q ->
  returns L db (Some q) = true ->
  exists result,
    fst (run (sse_generator L db (post a (inr (PDict d))))) = inr tt /\
    frames (log (snd (run (sse_generator L db (post a (inr (PDict d))))))) =
      [ Data (success_response (envelope_id d) (tool_content L result)) ].
Proof.
  intros Hm Hp Hq Hr.
  destruct (sse_tools_call_ex a d p q Hm Hp Hq) as (o & st' & E & R).
  unfold returns, run in Hr. rewrite E in Hr. simpl in Hr.
  destruct o as [e | result]; [discriminate Hr|].
  exists result. rewrite R; simpl. split; [reflexivity|].
  rewrite frames_app.
  pose proof (proj1 (execute_query_trace q)) as Hf. rewrite E in Hf.
  simpl in Hf. rewrite Hf. reflexivity.
Qed.

(** When [faultless] fails, some [.get] meets a value [v] that is not a
    dict: both handlers answer with the [AttributeError], and the
    database is not touched. *)
Lemma fault_answers (a : option string) (d : pydict) :
  faultless d = false ->
  exists v,
    mapping v = false /\
    (v = envelope_params d \/
     exists p, envelope_params d = PDict p /\ v = call_arguments p) /\
    run (sse_generator L db (post a (inr (PDict d)))) =
      (inr tt,
       {| conn := None; cursor := None;
          log := [ Yield (Data (rpc_error_no_id (-32603)
                                  ("Internal error: " ++ exn_msg (no_attribute v "get")))) ] |}) /\
    (unary a = true ->
     run (mcp_endpoint L db (post a (inr (PDict d)))) =
       (inr (JSONResponse
               (rpc_error_no_id (-32603) (exn_msg (no_attribute v "get"))) 500),
        initial)).
Proof.
  intros H. unfold faultless in H.
  destruct (eq_str (envelope_method d) "tools/call") eqn:K; [|discriminate].
  apply eq_str_true in K.
  destruct (envelope_params d) as [| |n|t|l|p|ty tx] eqn:Hp.
  1-5, 7:
    eexists; split; [|split; [left; reflexivity|]]; [reflexivity|];
    split; [|intros Hu; apply negb_true_iff in Hu];
    unfold_handler; try rewrite Hu; simpl; rewrite K; simpl; rewrite Hp; reflexivity.
  apply orb_false_iff in H. destruct H as [Hn Ha].
  apply negb_false_iff in Hn.
  exists (call_arguments p). split; [exact Ha|].
  split; [right; exists p; split; reflexivity|].
  unfold one_of in Hn. simpl in Hn.
  assert (Hname : call_name p = PStr "postgres_describe_table" \/
                  call_name p = PStr "postgres_query").
  { apply orb_true_iff in Hn. destruct Hn as [Hn | Hn];
      [left; apply eq_str_true, Hn|].
    apply orb_true_iff in Hn. destruct Hn as [Hn | Hn]; [|discriminate].
    right; apply eq_str_true, Hn. }
  split; [|intros Hu; apply negb_true_iff in Hu];
    unfold_handler; try rewrite Hu; simpl; rewrite K; simpl; rewrite Hp; simpl;
    (destruct Hname as [-> | ->]; simpl;
     destruct (dict_get p "arguments" (PDict [])); try discriminate Ha; reflexivity).
Qed.

(** The unary answer of a method other than [tools/call]. *)
Lemma http_plain_method (a : option string) (d : pydict) (name : string) :
  unary a = true ->
  envelope_method d = PStr name ->
  In name ["initialize"; "tools/list"; "resources/list"; "prompts/list"] ->
  exists result,
    run (mcp_endpoint L db (post a (inr (PDict d)))) =
      (inr (http_answer L (success_response (envelope_id d) result)), initial) /\
    unserialisable result = false.
Proof.
  intros Hu K H. apply negb_true_iff in Hu.
  simpl in H. destruct H as [<- | [<- | [<- | [<- | []]]]];
    unfold_handler; rewrite Hu; simpl; rewrite K; simpl;
    eexists; (split; [|shelve]);
    (destruct (unserialisable _) eqn:U; unfold http_answer; rewrite U; reflexivity).
  Unshelve. all: reflexivity.
Qed.

(** C7, as amended. An envelope handled without an internal fault is
    answered with its own id, or with 1 when it has none: on the
    streamed transport for every method, on the unary transport for the
    five known methods.  Handled without fault means that no [.get]
    meets a value that is not a dict ([faultless]), that [execute_query]
    returns, and on the unary transport that [JSONResponse] can
    serialise the id.  A [.get] on a value that is not a dict, and on
    the unary transport an id that cannot be serialised, are answered by
    code -32603 without id. *)
Theorem response_echoes_id_when_faultless (a : option string) (d : pydict) :
  (faultless d = true ->
   returns L db (query_of (sse_describe_query L) d) = true ->
   fst (run (sse_generator L db (post a (inr (PDict d))))) = inr tt /\
   sse_echoes_id L db a d) /\
  (faultless d = true ->
   unary a = true ->
   one_of (envelope_method d) known_methods = true ->
   returns L db (query_of (http_describe_query L) d) = true ->
   exists resp,
     fst (run (mcp_endpoint L db (post a (inr (PDict d))))) =
       inr (if unserialisable (envelope_id d)
            then JSONResponse
                   (PDict [ ("jsonrpc", PStr "2.0");
                            ("error",
                             PDict [ ("code", PInt (-32603));
                                     ("message", PStr (render_message L resp)) ]) ])
                   500
            else JSONResponse resp 200) /\
     echoes_id d resp) /\
  (faultless d = false ->
   exists v,
     mapping v = false /\
     frames (log (snd (run (sse_generator L db (post a (inr (PDict d))))))) =
       [ Data (PDict [ ("jsonrpc", PStr "2.0");
                       ("error",
                        PDict [ ("code", PInt (-32603));
                                ("message",
                                 PStr ("Internal error: '" ++ type_name v
                                       ++ "' object has no attribute 'get'")) ]) ]) ] /\
     (unary a = true ->
      fst (run (mcp_endpoint L db (post a (inr (PDict d))))) =
        inr (JSONResponse
               (PDict [ ("jsonrpc", PStr "2.0");
                        ("error",
                         PDict [ ("code", PInt (-32603));
                                 ("message",
                                  PStr ("'" ++ type_name v
                                        ++ "' object has no attribute 'get'")) ]) ])
               500))).
Proof.
  unfold sse_echoes_id. split; [|split].
  - intros Hf Hr.
    destruct (one_of (envelope_method d) known_methods) eqn:K.
    + unfold one_of in K. simpl in K.
      repeat (apply orb_true_iff in K; destruct K as [K | K]);
        try discriminate K; apply eq_str_true in K.
      1-4: unfold_handler; rewrite K; simpl;
           (split; [reflexivity|]); eexists; (split; [reflexivity|]);
           apply success_response_echoes_id.
      destruct (faultless_call d Hf K) as (p & Hp & [Hu | [[q Hq] _]]).
      * rewrite (sse_unknown_tool a d p K Hp Hu); simpl.
        split; [reflexivity|]. eexists. split; [reflexivity|].
        apply success_response_echoes_id.
      * rewrite (query_of_call _ d p K Hp), Hq in Hr.
        destruct (sse_tools_call_frames a d p q K Hp Hq Hr) as (result & -> & ->).
        split; [reflexivity|]. eexists. split; [reflexivity|].
        apply success_response_echoes_id.
    + rewrite (sse_unknown_method a d K); simpl.
      split; [reflexivity|]. eexists. split; [reflexivity|].
      apply rpc_error_echoes_id.
  - intros Hf Hu K Hr.
    unfold one_of in K. simpl in K.
    repeat (apply orb_true_iff in K; destruct K as [K | K]);
      try discriminate K; apply eq_str_true in K.
    1-4: (destruct (http_plain_method a d _ Hu K ltac:(simpl; tauto))
           as (result & -> & Hres);
          exists (success_response (envelope_id d) result);
          split; [|apply success_response_echoes_id];
          simpl; unfold http_answer, http_error, rpc_error_no_id, error_object;
          rewrite unserialisable_success_response, Hres, orb_false_r;
          reflexivity).
    { destruct (faultless_call d Hf K) as (p & Hp & [Hk | [_ [q Hq]]]).
         - rewrite (http_unknown_tool a d p Hu K Hp Hk); simpl.
           eexists. split; [|apply success_response_echoes_id].
           unfold http_answer, http_error, rpc_error_no_id.
           rewrite unserialisable_tool_response. reflexivity.
         - rewrite (query_of_call _ d p K Hp), Hq in Hr.
           destruct (http_tools_call_ex a d p q Hu K Hp Hq) as (o & st' & E & ->).
           unfold returns, run in Hr. rewrite E in Hr. simpl in Hr.
           destruct o as [e | result]; [discriminate Hr|]. simpl.
           eexists. split; [|apply success_response_echoes_id].
           unfold http_answer, http_error, rpc_error_no_id.
           rewrite unserialisable_tool_response. reflexivity. }
  - intros Hf. destruct (fault_answers a d Hf) as (v & Hv & _ & Rs & Ru).
    exists v. split; [exact Hv|]. split.
    + rewrite Rs. reflexivity.
    + intros Hu. rewrite (Ru Hu). reflexivity.
Qed.

End Properties.

(** * Instances *)

(** C7 as stated fails: a streamed [postgres_describe_table] call whose
    [arguments] is a list raises inside the handler, and the frame of
    the outer [except] clause has no [id]. *)
Lemma id_lost_when_arguments_is_a_list :
  frames (log (snd (run (sse_generator sample_lib sample_db
                           (post sse_accept (inr (PDict list_arguments_call))))))) =
    [ Data (rpc_error_no_id (-32603)
              "Internal error: 'list' object has no attribute 'get'") ] /\
  ~ sse_echoes_id sample_lib sample_db sse_accept list_arguments_call.
Proof.
  split; [reflexivity|].
  intros (resp & H & r & -> & Hid & _).
  vm_compute in H. inversion H; subst r. discriminate Hid.
Qed.

Lemma response_echoes_id_when_faultless_witness :
  faultless describe_call = true /\
  returns sample_lib sample_db (query_of (sse_describe_query sample_lib) describe_call) = true /\
  sse_echoes_id sample_lib sample_db sse_accept describe_call.
Proof.
  split; [reflexivity|]. split; [reflexivity|].
  apply (proj1 (response_echoes_id_when_faultless sample_lib sample_db sse_accept
                  describe_call)); reflexivity.
Defined.

Lemma unknown_method_witness :
  unary json_accept = true /\
  one_of (envelope_method nonexistent_call) known_methods = false /\
  frames (log (snd (run (sse_generator sample_lib sample_db
                           (post sse_accept (inr (PDict nonexistent_call))))))) =
    [ Data (rpc_error (PInt 7) (-32601) "Method not found: nonexistent") ] /\
  run (mcp_endpoint sample_lib sample_db (post json_accept (inr (PDict nonexistent_call)))) =
    (inr ReturnsNone, initial).
Proof.
  split; [reflexivity|]. split; [reflexivity|].
  destruct (unknown_method_streamed_error_unary_none sample_lib sample_db
              json_accept nonexistent_call eq_refl eq_refl) as [Hs Hu].
  split; [|exact Hu].
  unfold sse_accept. rewrite Hs. reflexivity.
Defined.

Lemma invalid_json_witness :
  unary json_accept = true /\
  run (mcp_endpoint sample_lib sample_db (post json_accept bad_json)) =
    (inr (JSONResponse
            (rpc_error_no_id (-32603) "Expecting value: line 1 column 1 (char 0)") 500),
     initial).
Proof.
  split; [reflexivity|].
  apply (invalid_json_streamed_32700_unary_32603 sample_lib sample_db json_accept).
  reflexivity.
Defined.

Lemma describe_table_witness :
  connect sample_db = inr tt /\
  open_cursor sample_db = inr tt /\
  unary json_accept = true /\
  envelope_method describe_call = PStr "tools/call" /\
  issued (log (snd (run (mcp_endpoint sample_lib sample_db
                           (post json_accept (inr (PDict describe_call))))))) =
    [ PStr "SELECT column_name, data_type, is_nullable FROM information_schema.columns WHERE table_name = 'employees' ORDER BY ordinal_position" ] /\
  contains "column_default"
    "SELECT column_name, data_type, is_nullable FROM information_schema.columns WHERE table_name = 'employees' ORDER BY ordinal_position"
  = false.
Proof.
  do 4 (split; [reflexivity|]).
  split; [|reflexivity].
  apply (describe_table_statement_per_transport sample_lib sample_db json_accept
           describe_call
           [ ("name", PStr "postgres_describe_table");
             ("arguments", PDict [("table_name", PStr "employees")]) ]
           [ ("table_name", PStr "employees") ]);
    reflexivity.
Defined.

(** The failing input of C4: the connection is lost while the statement
    of [postgres_list_tables] runs. *)
Lemma query_fault_witness :
  envelope_method list_tables_call = PStr "tools/call" /\
  fst (execute_query_try sample_lib lost_connection_db (PStr list_tables_query) initial) =
    inl (Exn OtherError "server closed the connection unexpectedly") /\
  fst (run (execute_query sample_lib lost_connection_db (PStr list_tables_query))) =
    inl (Exn OtherError "connection already closed") /\
  frames (log (snd (run (sse_generator sample_lib lost_connection_db
                           (post sse_accept (inr (PDict list_tables_call))))))) =
    [ Data (PDict [ ("jsonrpc", PStr "2.0");
                    ("error",
                     PDict [ ("code", PInt (-32603));
                             ("message",
                              PStr "Internal error: connection already closed") ]) ]) ] /\
  fst (run (mcp_endpoint sample_lib lost_connection_db
              (post json_accept (inr (PDict list_tables_call))))) =
    inr (JSONResponse
           (PDict [ ("jsonrpc", PStr "2.0");
                    ("error",
                     PDict [ ("code", PInt (-32603));
                             ("message", PStr "connection already closed") ]) ])
           500).
Proof.
  split; [reflexivity|]. split; [reflexivity|].
  destruct (query_fault_absorbed_unless_rollback_raises sample_lib lost_connection_db
              json_accept list_tables_call
              [ ("name", PStr "postgres_list_tables"); ("arguments", PDict []) ]
              (Exn OtherError "server closed the connection unexpectedly")
              eq_refl eq_refl)
    as (He & Hs & Hu).
  split; [exact (He (PStr list_tables_query) eq_refl)|].
  split.
  - destruct (query_fault_absorbed_unless_rollback_raises sample_lib lost_connection_db
                sse_accept list_tables_call
                [ ("name", PStr "postgres_list_tables"); ("arguments", PDict []) ]
                (Exn OtherError "server closed the connection unexpectedly")
                eq_refl eq_refl)
      as (_ & Hs' & _).
    exact (proj2 (Hs' (PStr list_tables_query) eq_refl eq_refl)).
  - exact (Hu (PStr list_tables_query) eq_refl eq_refl eq_refl).
Defined.

(** C5 as stated fails on the unary transport: under the id that
    [1e999] parses to, [JSONResponse] cannot serialise the success
    envelope and the answer is the document of the [except] clause. *)
Lemma unknown_tool_with_infinite_id_answers_500 :
  run (mcp_endpoint sample_lib sample_db (post json_accept (inr (PDict infinite_id_call)))) =
    (inr (JSONResponse
            (PDict [ ("jsonrpc", PStr "2.0");
                     ("error",
                      PDict [ ("code", PInt (-32603));
                              ("message",
                               PStr "Out of range float values are not JSON compliant") ]) ])
            500),
     initial) /\
  ~ (exists result,
       fst (run (mcp_endpoint sample_lib sample_db
                   (post json_accept (inr (PDict infinite_id_call))))) =
       inr (JSONResponse
              (PDict [ ("jsonrpc", PStr "2.0"); ("id", infinity); ("result", result) ])
              200)).
Proof.
  split; [reflexivity|].
  intros [result H]. vm_compute in H. discriminate H.
Qed.

(** The same id on [tools/list]: the streamed frame carries it, the unary
    answer is the 500 of the [except] clause. *)
Lemma tools_list_with_infinite_id :
  let call := [ ("jsonrpc", PStr "2.0"); ("id", infinity); ("method", PStr "tools/list") ] in
  frames (log (snd (run (sse_generator sample_lib sample_db
                           (post sse_accept (inr (PDict call))))))) =
    [ Data (PDict [ ("jsonrpc", PStr "2.0"); ("id", infinity);
                    ("result", PDict [("tools", MCP_TOOLS)]) ]) ] /\
  fst (run (mcp_endpoint sample_lib sample_db (post json_accept (inr (PDict call))))) =
    inr (JSONResponse
           (PDict [ ("jsonrpc", PStr "2.0");
                    ("error",
                     PDict [ ("code", PInt (-32603));
                             ("message",
                              PStr "Out of range float values are not JSON compliant") ]) ])
           500).
Proof. split; reflexivity. Qed.

Lemma unknown_tool_witness :
  envelope_method unknown_tool_call = PStr "tools/call" /\
  one_of (call_name [ ("name", PStr "postgres_drop"); ("arguments", PDict []) ])
         known_tools = false /\
  unary json_accept = true /\
  run (mcp_endpoint sample_lib sample_db (post json_accept (inr (PDict unknown_tool_call)))) =
    (inr (JSONResponse
            (PDict [ ("jsonrpc", PStr "2.0");
                     ("id", PInt 7);
                     ("result",
                      PDict [ ("content",
                               PList [ PDict [ ("type", PStr "text");
                                               ("text",
                                                PStr (show
                                                        (PDict [ ("success", PBool false);
                                                                 ("error",
                                                                  PStr "Unknown tool: postgres_drop") ]))) ] ]) ]) ])
            200),
     initial).
Proof.
  do 3 (split; [reflexivity|]).
  apply (unknown_tool_is_reported_in_success_envelope sample_lib sample_db json_accept
           unknown_tool_call
           [ ("name", PStr "postgres_drop"); ("arguments", PDict []) ]);
    reflexivity.
Defined.


Lemma missing_method_witness :
  dict_has no_method_envelope "method" = false /\
  frames (log (snd (run (sse_generator sample_lib sample_db
                           (post sse_accept (inr (PDict no_method_envelope))))))) =
    [ Data (rpc_error (PInt 7) (-32601) "Method not found: ") ].
Proof.
  split; [reflexivity|].
  apply (sse_missing_method_is_method_not_found sample_lib sample_db sse_accept
           no_method_envelope).
  reflexivity.
Defined.

(** * Further properties *)

Section Coverage.

Variable L : stdlib.
Variable db : driver.

Ltac unfold_effects :=
  unfold run, health, json_response, execute_query, execute_query_try,
    get_db_connection, conn_cursor, cursor_execute, cursor_fetchall, conn_commit,
    conn_rollback, startswith_read_keyword in *;
  unfold try_finally, try_except, bind, ret, raise, lift, when, perform,
    set_conn, set_cursor, get_conn, get_cursor, Exception in *;
  unfold initial; simpl.

(** Runs through the outcomes of the driver calls of [execute_query];
    [close] finishes each of them. *)
Ltac executor_cases query close :=
  destruct (rollback db) as [?|[]]; simpl;
  (destruct (connect db) as [?|[]]; simpl; [close|];
   destruct (open_cursor db) as [?|[]]; simpl; [close|];
   destruct (execute db query) as [?|?done]; simpl; [close|];
   destruct query; simpl; try close;
   destruct (read_like_test _ _); simpl;
   [ destruct (fetchall done); simpl; close
   | destruct (commit db) as [?|[]]; simpl; close ]).

(** ** Health *)

(** X1. [health] never raises: it answers 200 [healthy] exactly when the
    trial connection opens, and then closes it; otherwise it answers 503
    with the message of the error, and nothing is closed.  No cursor is
    opened either way. *)
Theorem health_reports_reachability :
  exists resp st,
    run (health L db) = (inr resp, st) /\
    match connect db with
    | inr _ =>
        resp = JSONResponse
                 (PDict [ ("status", PStr "healthy"); ("database", PStr "connected") ])
                 200 /\
        log st = [DbConnect; DbConnClose]
    | inl e =>
        resp = JSONResponse
                 (PDict [ ("status", PStr "unhealthy"); ("error", PStr (exn_msg e)) ])
                 503 /\
        log st = [DbConnect]
    end.
Proof.
  unfold_effects.
  destruct (connect db) as [e|[]]; simpl; eexists; eexists; repeat split.
Qed.

(** ** Connections and transactions of [execute_query] *)

(** X2. Whatever the driver does, [execute_query] connects exactly once,
    first of all.  If the connection fails nothing else happens; if it
    opens, it is closed exactly once, as the last effect, and the cursor
    is closed exactly when it was opened. *)
Theorem connection_released_on_every_path (query : pyval) :
  let l := log (snd (run (execute_query L db query))) in
  hd_error l = Some DbConnect /\
  count is_connect l = 1%nat /\
  match connect db with
  | inl _ => l = [DbConnect]
  | inr _ =>
      last l DbConnect = DbConnClose /\
      count is_conn_close l = 1%nat /\
      count is_cursor l = 1%nat /\
      count is_cursor_close l =
        match open_cursor db with inr _ => 1%nat | inl _ => 0%nat end
  end.
Proof.
  cbv zeta. unfold_effects.
  executor_cases query ltac:(repeat split; reflexivity).
Qed.

(** X3. The result tells what happened to the transaction.  A result
    with [data] was fetched once and neither committed nor rolled back;
    a result with [message] was committed once and not rolled back; a
    failure was rolled back once if the connection had opened, and not
    at all otherwise.  At most one statement reaches the driver.
    [execute_query] returns such a result unless the [rollback] raises,
    which it then did once. *)
Theorem result_shape_tells_transaction_outcome (query : pyval) :
  let l := log (snd (run (execute_query L db query))) in
  (count is_execute l <= 1)%nat /\
  ((exists result,
      fst (run (execute_query L db query)) = inr result /\
      match populated result with
      | (true, false, false) =>
          count is_fetchall l = 1%nat /\ count is_commit l = 0%nat /\
          count is_rollback l = 0%nat
      | (false, true, false) =>
          count is_fetchall l = 0%nat /\ count is_commit l = 1%nat /\
          count is_rollback l = 0%nat
      | _ =>
          count is_rollback l =
            match connect db with inr _ => 1%nat | inl _ => 0%nat end
      end) \/
   (exists e,
      fst (run (execute_query L db query)) = inl e /\
      rollback db = inl e /\ connect db = inr tt /\
      count is_rollback l = 1%nat)).
Proof.
  cbv zeta. unfold_effects.
  executor_cases query
    ltac:(split;
          [ unfold count; simpl; first [apply le_n | apply le_S, le_n]
          | first [ left; eexists; split; [reflexivity | repeat split; reflexivity]
                  | right; eexists; repeat split; reflexivity ] ]).
Qed.

(** ** Classification of statements *)

Lemma lstrip_all_space (ws : string) : all_space ws -> lstrip ws = EmptyString.
Proof.
  induction ws as [|c ws IH]; simpl; [reflexivity|].
  intros [-> H]. apply IH, H.
Qed.

Lemma rstrip_all_space (ws : string) : all_space ws -> rstrip ws = EmptyString.
Proof.
  induction ws as [|c ws IH]; simpl; [reflexivity|].
  intros [-> H]. rewrite (IH H). reflexivity.
Qed.

Lemma rstrip_trailing_space (s ws : string) :
  all_space ws -> rstrip (s ++ ws) = rstrip s.
Proof.
  intros H. induction s as [|c s IH]; simpl.
  - apply rstrip_all_space, H.
  - rewrite IH. reflexivity.
Qed.

Lemma strip_trailing_space (s ws : string) :
  all_space ws -> strip (s ++ ws) = strip s.
Proof.
  intros H. unfold strip. induction s as [|c s IH]; simpl.
  - rewrite (lstrip_all_space ws H). reflexivity.
  - destruct (isspace c); [exact IH|].
    apply (rstrip_trailing_space (String c s) ws H).
Qed.

Lemma strip_surrounding_space (ws1 s ws2 : string) :
  all_space ws1 -> all_space ws2 -> strip (ws1 ++ s ++ ws2) = strip s.
Proof.
  intros H1 H2. unfold strip. rewrite (lstrip_leading_space _ _ H1).
  apply (strip_trailing_space s ws2 H2).
Qed.

Lemma upper_char_idempotent (c : ascii) : upper_char (upper_char c) = upper_char c.
Proof. destruct c as [[] [] [] [] [] [] [] []]; reflexivity. Qed.

Lemma lstrip_upper (s : string) : lstrip (upper s) = upper (lstrip s).
Proof.
  induction s as [|c s IH]; simpl; [reflexivity|].
  rewrite isspace_upper_char. destruct (isspace c); [exact IH | reflexivity].
Qed.

Lemma rstrip_upper (s : string) : rstrip (upper s) = upper (rstrip s).
Proof.
  induction s as [|c s IH]; simpl; [reflexivity|].
  rewrite IH, isspace_upper_char.
  destruct (rstrip s); simpl; [destruct (isspace c)|]; reflexivity.
Qed.

Lemma strip_upper (s : string) : strip (upper s) = upper (strip s).
Proof. unfold strip. rewrite lstrip_upper, rstrip_upper. reflexivity. Qed.

(** X4. The classification looks at nothing but the statement without
    its surrounding whitespace and without the case of its letters: two
    statements that differ only in case, or only by whitespace before and
    after, are classified alike.  A statement of whitespace only is not
    read-like. *)
Theorem classification_ignores_case_and_outer_space (ws1 q q' ws2 : string) :
  all_space ws1 ->
  all_space ws2 ->
  caseless q q' ->
  is_read_like (ws1 ++ q ++ ws2) = is_read_like q' /\
  is_read_like (ws1 ++ ws2) = false.
Proof.
  intros H1 H2 Hc. unfold is_read_like. split.
  - rewrite (strip_surrounding_space _ _ _ H1 H2).
    apply caseless_upper in Hc.
    rewrite <- !strip_upper, Hc. reflexivity.
  - change (ws1 ++ ws2) with (ws1 ++ EmptyString ++ ws2).
    rewrite (strip_surrounding_space _ _ _ H1 H2). reflexivity.
Qed.

(** The effects of [execute_query] by the class of the statement. *)
Lemma effects_by_class (query : string) :
  let l := log (snd (run (execute_query L db (PStr query)))) in
  if read_like_test L query
  then count is_commit l = 0%nat
  else count is_fetchall l = 0%nat.
Proof.
  cbv zeta. unfold_effects.
  destruct (rollback db) as [?|[]]; simpl;
    (destruct (connect db) as [?|[]]; simpl;
       [destruct (read_like_test _ _); reflexivity|];
     destruct (open_cursor db) as [?|[]]; simpl;
       [destruct (read_like_test _ _); reflexivity|];
     destruct (execute db (PStr query)) as [?|done]; simpl;
       [destruct (read_like_test _ _); reflexivity|];
     destruct (read_like_test _ _); simpl;
     [ destruct (fetchall done); reflexivity
     | destruct (commit db) as [?|[]]; reflexivity ]).
Qed.

(** X5. A statement that passes the test of line 108, as every
    statement does that begins with SELECT, WITH, SHOW or DESCRIBE after
    leading whitespace, is never committed, whatever it does in the
    database, and a result returned for it never has the [message]
    shape; any other statement is never fetched from, and a result
    returned for it never has the [data] shape. *)
Theorem read_like_statements_are_never_committed (query : string) :
  let l := log (snd (run (execute_query L db (PStr query)))) in
  (spec_read_like query -> read_like_test L query = true) /\
  (if read_like_test L query
   then count is_commit l = 0%nat
   else count is_fetchall l = 0%nat) /\
  (forall result,
     fst (run (execute_query L db (PStr query))) = inr result ->
     if read_like_test L query
     then populated result <> (false, true, false)
     else populated result <> (true, false, false)).
Proof.
  cbv zeta. split; [apply spec_read_like_passes_test|].
  split; [apply effects_by_class|].
  intros result. unfold_effects.
  destruct (rollback db) as [?|[]]; simpl;
    (destruct (connect db) as [?|[]]; simpl;
       [destruct (read_like_test _ _); intros H; inversion H; discriminate|];
     destruct (open_cursor db) as [?|[]]; simpl;
       [destruct (read_like_test _ _); intros H; inversion H; discriminate|];
     destruct (execute db (PStr query)) as [?|done]; simpl;
       [destruct (read_like_test _ _); intros H; inversion H; discriminate|];
     destruct (read_like_test _ _); simpl;
     [ destruct (fetchall done); simpl; intros H; inversion H; discriminate
     | destruct (commit db) as [?|[]]; simpl; intros H; inversion H; discriminate ]).
Qed.

Lemma all_space_spaces (n : nat) : all_space (spaces n).
Proof. induction n; simpl; auto. Qed.

Lemma sse_describe_query_read_like (table : pyval) :
  is_read_like (sse_describe_query L table) = true.
Proof.
  apply is_read_like_spec.
  exists (nl ++ spaces 36), "SELECT",
    (" column_name, data_type, is_nullable, column_default" ++
     nl ++ spaces 36 ++ "FROM information_schema.columns" ++
     nl ++ spaces 36 ++ "WHERE table_name = '" ++ py_str L table ++ "'" ++
     nl ++ spaces 36 ++ "ORDER BY ordinal_position" ++
     nl ++ spaces 32),
    "SELECT".
  split; [reflexivity|]. split; [|split].
  - split; [reflexivity | apply all_space_spaces].
  - simpl; auto.
  - simpl. unfold same_letter. tauto.
Qed.

Lemma http_describe_query_read_like (table : pyval) :
  is_read_like (http_describe_query L table) = true.
Proof.
  apply is_read_like_spec.
  exists EmptyString, "SELECT",
    (" column_name, data_type, is_nullable FROM information_schema.columns WHERE table_name = '"
     ++ py_str L table ++ "' ORDER BY ordinal_position"),
    "SELECT".
  split; [reflexivity|]. split; [exact I|]. split.
  - simpl; auto.
  - simpl. unfold same_letter. tauto.
Qed.

(** X6. Whatever the table name, quotes and semicolons included, the
    statements of [postgres_describe_table] on both transports are
    read-like, as is the statement of [postgres_list_tables]: these tools
    never commit. *)
Theorem catalog_statements_never_commit (table : pyval) :
  (is_read_like (sse_describe_query L table) = true /\
   count is_commit
     (log (snd (run (execute_query L db (PStr (sse_describe_query L table)))))) = 0%nat) /\
  (is_read_like (http_describe_query L table) = true /\
   count is_commit
     (log (snd (run (execute_query L db (PStr (http_describe_query L table)))))) = 0%nat) /\
  (is_read_like list_tables_query = true /\
   count is_commit
     (log (snd (run (execute_query L db (PStr list_tables_query))))) = 0%nat).
Proof.
  pose proof (effects_by_class (sse_describe_query L table)) as Hs.
  pose proof (effects_by_class (http_describe_query L table)) as Hh.
  pose proof (effects_by_class list_tables_query) as Hl.
  cbv zeta in *.
  rewrite (spec_read_like_passes_test L _
             (proj1 (is_read_like_spec _) (sse_describe_query_read_like table))) in Hs.
  rewrite (spec_read_like_passes_test L _
             (proj1 (is_read_like_spec _) (http_describe_query_read_like table))) in Hh.
  assert (Ht : is_read_like list_tables_query = true) by reflexivity.
  rewrite (spec_read_like_passes_test L list_tables_query
             (proj1 (is_read_like_spec _) Ht)) in Hl.
  repeat split;
    auto using sse_describe_query_read_like, http_describe_query_read_like.
Qed.

(** X7. A [query] argument that is not a string never yields a success:
    a result, if one is returned, is a failure, and nothing is fetched or
    committed.  If the driver accepts the value, the statement is
    executed first and then rolled back; if the rollback returns, the
    message is that of the [AttributeError] of [query.strip()]. *)
Theorem non_string_query_fails_without_commit (query : pyval) :
  is_str query = false ->
  let l := log (snd (run (execute_query L db query))) in
  ((exists msg,
      fst (run (execute_query L db query)) =
        inr (PDict [ ("success", PBool false); ("error", PStr msg) ])) \/
   (exists e,
      fst (run (execute_query L db query)) = inl e /\ rollback db = inl e)) /\
  count is_commit l = 0%nat /\
  count is_fetchall l = 0%nat /\
  (connect db = inr tt -> open_cursor db = inr tt ->
   (exists done, execute db query = inr done) ->
   l = [ DbConnect; DbCursor; DbExecute query; DbRollback;
         DbCursorClose; DbConnClose ] /\
   (rollback db = inr tt ->
    fst (run (execute_query L db query)) =
      inr (PDict [ ("success", PBool false);
                   ("error",
                    PStr ("'" ++ type_name query
                          ++ "' object has no attribute 'strip'")) ]))).
Proof.
  intros Hs. cbv zeta. unfold_effects.
  destruct (rollback db) as [e'|[]]; simpl;
    (destruct (connect db) as [?|[]]; simpl;
       [split; [left; eexists; reflexivity|];
        do 2 (split; [reflexivity|]); intros Hc Ho [d Hd]; congruence|];
     destruct (open_cursor db) as [?|[]]; simpl;
       [split; [first [left; eexists; reflexivity | right; eexists; split; reflexivity]|];
        do 2 (split; [reflexivity|]); intros Hc Ho [d Hd]; congruence|];
     destruct (execute db query) as [?|done]; simpl;
       [split; [first [left; eexists; reflexivity | right; eexists; split; reflexivity]|];
        do 2 (split; [reflexivity|]); intros Hc Ho [d Hd]; congruence|];
     destruct query; try discriminate Hs; simpl;
     (split; [first [left; eexists; reflexivity | right; eexists; split; reflexivity]|];
      do 2 (split; [reflexivity|]); intros _ _ _;
      split; [reflexivity | intros Hr; first [discriminate Hr | reflexivity]])).
Qed.

(** ** Rows as dicts *)

Lemma dict_get_app (l1 l2 : pydict) (k : string) (default : pyval) :
  dict_get (l1 ++ l2)%list k default = dict_get l1 k (dict_get l2 k default).
Proof.
  induction l1 as [|[k' v] l1 IH]; simpl; [reflexivity|].
  destruct (String.eqb k' k); [reflexivity | exact IH].
Qed.

Lemma dict_get_set (d : pydict) (k k' : string) (v default : pyval) :
  dict_get (dict_set d k v) k' default =
  if String.eqb k k' then v else dict_get d k' default.
Proof.
  induction d as [|[k0 v0] d IH]; simpl.
  - reflexivity.
  - destruct (String.eqb k0 k) eqn:E0; simpl.
    + apply String.eqb_eq in E0. subst k0.
      destruct (String.eqb k k'); reflexivity.
    + destruct (String.eqb k0 k') eqn:E1; [|exact IH].
      apply String.eqb_eq in E1. subst k0. rewrite String.eqb_sym, E0. reflexivity.
Qed.

Lemma dict_keys_set (d : pydict) (k : string) (v : pyval) :
  dict_keys (dict_set d k v) =
  if dict_has d k then dict_keys d else (dict_keys d ++ [k])%list.
Proof.
  induction d as [|[k0 v0] d IH]; simpl; [reflexivity|].
  destruct (String.eqb k0 k) eqn:E0; simpl; [reflexivity|].
  unfold dict_keys in *. rewrite IH. destruct (dict_has d k); reflexivity.
Qed.

Lemma dict_has_keys (d : pydict) (k : string) :
  dict_has d k = true <-> In k (dict_keys d).
Proof.
  induction d as [|[k0 v0] d IH]; simpl; [split; [discriminate | tauto]|].
  rewrite orb_true_iff, IH, String.eqb_eq. tauto.
Qed.

Lemma dict_of_pairs_from (kvs : list (string * pyval)) (acc : pydict)
      (k : string) (default : pyval) :
  NoDup (dict_keys acc) ->
  NoDup (dict_keys (fold_left (fun d kv => dict_set d (fst kv) (snd kv)) kvs acc)) /\
  dict_get (fold_left (fun d kv => dict_set d (fst kv) (snd kv)) kvs acc) k default =
    dict_get (rev kvs) k (dict_get acc k default).
Proof.
  revert acc. induction kvs as [|[k0 v0] kvs IH]; intros acc Hn; simpl.
  - split; [exact Hn | reflexivity].
  - assert (Hn' : NoDup (dict_keys (dict_set acc k0 v0))).
    { rewrite dict_keys_set. destruct (dict_has acc k0) eqn:E; [exact Hn|].
      apply NoDup_app; [exact Hn | repeat constructor; simpl; tauto |].
      intros x Hx [<- | []]. apply dict_has_keys in Hx. congruence. }
    destruct (IH _ Hn') as [H1 H2]. split; [exact H1|].
    rewrite H2, dict_get_app, dict_get_set. reflexivity.
Qed.

Lemma dict_get_unique (l : pydict) (k : string) (v default : pyval) :
  NoDup (dict_keys l) -> In (k, v) l -> dict_get l k default = v.
Proof.
  induction l as [|[k0 v0] l IH]; simpl; [tauto|].
  intros Hn [E | Hin].
  - inversion E; subst. rewrite String.eqb_refl. reflexivity.
  - inversion Hn as [|? ? Hk Hl]; subst.
    destruct (String.eqb k0 k) eqn:E0; [|apply IH; assumption].
    apply String.eqb_eq in E0. subst k0. exfalso. apply Hk.
    change k with (fst (k, v)). apply in_map, Hin.
Qed.

Lemma zip_keys_nodup (columns : list string) (row : list pyval) :
  NoDup columns -> NoDup (dict_keys (zip columns row)).
Proof.
  revert row. induction columns as [|c cs IH]; intros [|v row] Hn; simpl;
    try constructor.
  - inversion Hn as [|? ? Hc Hcs]; subst. intros Hin. apply Hc.
    apply in_map_iff in Hin. destruct Hin as ([c' v'] & <- & Hin).
    apply in_combine_l in Hin. exact Hin.
  - inversion Hn; subst. apply IH. assumption.
Qed.

Lemma zip_nth (columns : list string) (row : list pyval) (i : nat)
      (c : string) (v : pyval) :
  nth_error columns i = Some c -> nth_error row i = Some v ->
  In (c, v) (zip columns row).
Proof.
  revert row i. induction columns as [|c0 cs IH]; intros [|v0 row] [|i]; simpl;
    try discriminate.
  - intros H1 H2. inversion H1; inversion H2; subst. left. reflexivity.
  - intros H1 H2. right. apply (IH row i); assumption.
Qed.

(** X8. The dict built from a row, [dict(zip(columns, row))], has every
    key once, and what is found under a name is the value of the last
    column of that name: with two columns of the same name the earlier
    value is lost.  When the column names are distinct, each value of
    the row is found under the name of its column. *)
Theorem row_dict_keeps_last_column_of_a_name
        (columns : list string) (row : list pyval) (default : pyval) :
  NoDup (dict_keys (dict_of_pairs (zip columns row))) /\
  (forall name,
     dict_get (dict_of_pairs (zip columns row)) name default =
     dict_get (rev (zip columns row)) name default) /\
  (NoDup columns ->
   forall i name v,
     nth_error columns i = Some name -> nth_error row i = Some v ->
     dict_get (dict_of_pairs (zip columns row)) name default = v).
Proof.
  unfold dict_of_pairs.
  assert (N0 : NoDup (dict_keys [])) by constructor.
  split; [apply (proj1 (dict_of_pairs_from _ [] EmptyString default N0))|].
  split.
  - intros name. apply (proj2 (dict_of_pairs_from _ [] name default N0)).
  - intros Hn i name v Hc Hv.
    rewrite (proj2 (dict_of_pairs_from _ [] name default N0)). simpl.
    apply dict_get_unique.
    + unfold dict_keys. rewrite map_rev. apply NoDup_rev.
      apply (zip_keys_nodup columns row Hn).
    + apply in_rev. rewrite rev_involutive. apply (zip_nth _ _ i); assumption.
Qed.

(** ** Answers of the two handlers *)

Ltac unfold_endpoint :=
  unfold run, sse_generator, mcp_endpoint, json_response, envelope_method, envelope_params,
    envelope_id, call_name, call_arguments, post, unary in *;
  simpl; unfold get, py_get, yield in *;
  unfold try_finally, try_except, bind, ret, raise, lift, when, perform,
    set_conn, set_cursor, get_conn, get_cursor, Exception in *;
  simpl.

(** The log of [execute_query] holds driver calls only, one of them the
    connection. *)
Lemma execute_query_log_is_db (query : pyval) :
  filter is_db (log (snd (run (execute_query L db query)))) =
    log (snd (run (execute_query L db query))) /\
  count is_connect (log (snd (run (execute_query L db query)))) = 1%nat.
Proof.
  unfold_effects. executor_cases query ltac:(split; reflexivity).
Qed.

(** A streamed POST with a JSON object as body: one frame, written
    last. *)
Lemma sse_answer (a : option string) (d : pydict) :
  exists resp,
    fst (run (sse_generator L db (post a (inr (PDict d))))) = inr tt /\
    frames (log (snd (run (sse_generator L db (post a (inr (PDict d))))))) = [Data resp] /\
    last (log (snd (run (sse_generator L db (post a (inr (PDict d))))))) (Sleep 0) =
      Yield (Data resp).
Proof.
  destruct (faultless d) eqn:F.
  - destruct (one_of (envelope_method d) known_methods) eqn:K.
    + unfold one_of in K. simpl in K.
      repeat (apply orb_true_iff in K; destruct K as [K | K]);
        try discriminate K; apply eq_str_true in K.
      1-4: unfold_endpoint; rewrite K; simpl; eexists;
           (split; [reflexivity|]); split; reflexivity.
      destruct (faultless_call L d F K) as (p & Hp & [Hu | [[q Hq] _]]).
      * rewrite (sse_unknown_tool L db a d p K Hp Hu); simpl.
        eexists. split; [reflexivity|]. split; reflexivity.
      * destruct (sse_tools_call_ex L db a d p q K Hp Hq) as (o & st' & E & R).
        rewrite R; simpl.
        pose proof (proj1 (execute_query_trace L db q)) as Hf.
        unfold run in Hf. rewrite E in Hf. simpl in Hf.
        rewrite frames_app, last_last, Hf.
        destruct o as [e | result]; simpl;
          [unfold sse_error_frame; destruct (is_JSONDecodeError e)|];
          eexists; (split; [reflexivity|]); split; reflexivity.
    + rewrite (sse_unknown_method L db a d K); simpl.
      eexists. split; [reflexivity|]. split; reflexivity.
  - destruct (fault_answers L db a d F) as (v & _ & _ & R & _).
    rewrite R; simpl. eexists. split; [reflexivity|]. split; reflexivity.
Qed.

(** X9. A streamed POST is answered by exactly one frame, a [data]
    frame, whatever the body and whatever the database does; the frame
    is the last effect of the generator, which then returns normally. *)
Theorem sse_post_yields_exactly_one_frame (a : option string) (body : exn + pyval) :
  exists resp,
    fst (run (sse_generator L db (post a body))) = inr tt /\
    frames (log (snd (run (sse_generator L db (post a body))))) = [Data resp] /\
    last (log (snd (run (sse_generator L db (post a body))))) (Sleep 0) =
      Yield (Data resp).
Proof.
  destruct body as [[[| |] msg] | v].
  1-3: eexists; split; [reflexivity|]; split; reflexivity.
  destruct v; try (eexists; split; [reflexivity|]; split; reflexivity).
  apply sse_answer.
Qed.

(** X10. A body that is valid JSON but not an object, and a failure of
    [request.json()] other than a [JSONDecodeError], are internal errors:
    the streamed handler yields code -32603 with [Internal error: ]
    before the message and no id, the unary handler answers 500 with
    the bare message.  The database is not touched. *)
Theorem unreadable_body_is_internal_error
        (a : option string) (body : exn + pyval) (msg : string) :
  unreadable body = Some msg ->
  run (sse_generator L db (post a body)) =
    (inr tt,
     {| conn := None; cursor := None;
        log := [ Yield (Data (rpc_error_no_id (-32603) ("Internal error: " ++ msg))) ] |}) /\
  (unary a = true ->
   run (mcp_endpoint L db (post a body)) =
     (inr (JSONResponse (rpc_error_no_id (-32603) msg) 500), initial)).
Proof.
  intros H. unfold unreadable in H.
  split; [|intros Hu; apply negb_true_iff in Hu; unfold run, mcp_endpoint; simpl;
           rewrite Hu; simpl];
    (destruct body as [[[| |] m] | v]; simpl in H;
     [discriminate H | | | destruct v; try discriminate H];
     inversion H; subst msg; reflexivity).
Qed.

(** X11. In a [tools/call], a [params] that is not a mapping, and for
    [postgres_describe_table] and [postgres_query] an [arguments] that is
    not a mapping, are internal errors as well: code -32603 with the
    message of the [AttributeError], no id, status 500 on the unary
    transport, and no call to the database. *)
Theorem unreadable_arguments_are_internal_error (a : option string) (d : pydict) :
  faultless d = false ->
  exists v,
    mapping v = false /\
    (v = envelope_params d \/
     exists p, envelope_params d = PDict p /\ v = call_arguments p) /\
    run (sse_generator L db (post a (inr (PDict d)))) =
      (inr tt,
       {| conn := None; cursor := None;
          log := [ Yield (Data (rpc_error_no_id (-32603)
                                  ("Internal error: '" ++ type_name v
                                   ++ "' object has no attribute 'get'"))) ] |}) /\
    (unary a = true ->
     run (mcp_endpoint L db (post a (inr (PDict d)))) =
       (inr (JSONResponse
               (rpc_error_no_id (-32603)
                  ("'" ++ type_name v ++ "' object has no attribute 'get'")) 500),
        initial)).
Proof.
  intros F. destruct (fault_answers L db a d F) as (v & Hv & Hw & Rs & Ru).
  exists v. split; [exact Hv|]. split; [exact Hw|]. split; [exact Rs | exact Ru].
Qed.

(** ** The two transports side by side *)

Lemma tool_query_same_unless_describe
      (describe1 describe2 : pyval -> string) (name arguments : pyval) :
  eq_str name "postgres_describe_table" = false ->
  tool_query describe1 name arguments = tool_query describe2 name arguments.
Proof. intros H. unfold tool_query. rewrite H. reflexivity. Qed.

(** X12. For [tools/list], [resources/list], [prompts/list] and every
    [tools/call] but that of [postgres_describe_table], when
    [execute_query] returns for the statement of the call and
    [JSONResponse] can serialise the id of the envelope, the document of
    the unary transport is the payload of the frame of the streamed
    transport.  Both transports make the same calls to the database,
    with or without these two conditions. *)
Theorem transports_agree_outside_initialize_and_describe
        (a : option string) (d : pydict) :
  unary a = true ->
  faultless d = true ->
  one_of (envelope_method d)
         ["tools/list"; "resources/list"; "prompts/list"; "tools/call"] = true ->
  calls_describe d = false ->
  filter is_db (log (snd (run (sse_generator L db (post a (inr (PDict d))))))) =
    log (snd (run (mcp_endpoint L db (post a (inr (PDict d)))))) /\
  (returns L db (query_of (sse_describe_query L) d) = true ->
   unserialisable (envelope_id d) = false ->
   exists resp,
     frames (log (snd (run (sse_generator L db (post a (inr (PDict d))))))) = [Data resp] /\
     fst (run (mcp_endpoint L db (post a (inr (PDict d))))) = inr (JSONResponse resp 200)).
Proof.
  intros Hu F K Hd. pose proof Hu as Hu'. apply negb_true_iff in Hu'.
  unfold one_of in K. simpl in K.
  repeat (apply orb_true_iff in K; destruct K as [K | K]);
    try discriminate K; apply eq_str_true in K.
  1-3: (split;
        [ unfold_endpoint; rewrite Hu'; simpl; rewrite K; simpl;
          destruct (unserialisable _); reflexivity
        | intros _ Hid; eexists;
          split; [unfold_endpoint; rewrite K; reflexivity|];
          unfold_endpoint; rewrite Hu'; simpl; rewrite K; simpl;
          match goal with
          | |- context [unserialisable ?c] =>
              assert (U : unserialisable c = false)
                by (rewrite unserialisable_success_response, Hid; reflexivity);
              rewrite U
          end; reflexivity ]).
  destruct (faultless_call L d F K) as (p & Hp & [Hk | [[q Hq] [q' Hq']]]).
  - rewrite (sse_unknown_tool L db a d p K Hp Hk),
            (http_unknown_tool L db a d p Hu K Hp Hk); simpl.
    split; [reflexivity|]. intros _ Hid.
    eexists. split; [reflexivity|].
    unfold http_answer. rewrite unserialisable_tool_response, Hid. reflexivity.
  - unfold calls_describe in Hd. rewrite K, Hp in Hd. simpl in Hd.
    rewrite (tool_query_same_unless_describe _ (http_describe_query L) _ _ Hd) in Hq.
    assert (q' = q) by congruence. subst q'.
    assert (Hq0 : tool_query (sse_describe_query L) (call_name p) (call_arguments p)
                  = Some q).
    { rewrite (tool_query_same_unless_describe _ (http_describe_query L) _ _ Hd).
      exact Hq. }
    destruct (execute_query L db q initial) as [o st'] eqn:E.
    rewrite (sse_tools_call L db a d p q o st' K Hp Hq0 E),
            (http_tools_call L db a d p q o st' Hu K Hp Hq E); simpl.
    split.
    + rewrite filter_app; simpl. rewrite app_nil_r.
      pose proof (proj1 (execute_query_log_is_db q)) as Hl.
      unfold run in Hl. rewrite E in Hl. exact Hl.
    + intros Hr Hid. rewrite (query_of_call _ d p K Hp), Hq0 in Hr.
      unfold returns, run in Hr. rewrite E in Hr. simpl in Hr.
      destruct o as [e | result]; [discriminate Hr|]. simpl.
      eexists. split.
      * rewrite frames_app.
        pose proof (proj1 (execute_query_trace L db q)) as Hf.
        unfold run in Hf. rewrite E in Hf. simpl in Hf. rewrite Hf. reflexivity.
      * unfold http_answer. rewrite unserialisable_tool_response, Hid. reflexivity.
Qed.

(** X13. [initialize] does not give the same answer on the two
    transports: the streamed result declares [tools] only, as the
    discovery frame of a GET does, and the unary result declares
    [tools], [resources] and [prompts]; when [JSONResponse] cannot
    serialise the id, the unary answer is the document of the [except]
    clause instead, 500 with code -32603.  Neither touches the
    database. *)
Theorem initialize_capabilities_by_transport
        (a a' : option string) (d : pydict) (body' : exn + pyval) :
  unary a = true ->
  envelope_method d = PStr "initialize" ->
  let result capabilities :=
    PDict [ ("protocolVersion", PStr "2024-11-05");
            ("capabilities", PDict capabilities);
            ("serverInfo",
             PDict [ ("name", PStr "PostgreSQL MCP Server");
                     ("version", PStr "1.0.0") ]) ] in
  let unary_document :=
    PDict [ ("jsonrpc", PStr "2.0"); ("id", envelope_id d);
            ("result", result [ ("tools", PDict []);
                                ("resources", PDict []);
                                ("prompts", PDict []) ]) ] in
  log (snd (run (sse_generator L db (post a (inr (PDict d)))))) =
    [ Yield (Data (PDict [ ("jsonrpc", PStr "2.0"); ("id", envelope_id d);
                           ("result", result [("tools", PDict [])]) ])) ] /\
  hd_error (log (snd (run (sse_generator L db
                             {| method := GET; accept := a'; json := body' |})))) =
    Some (Yield (Data (PDict [ ("jsonrpc", PStr "2.0");
                               ("result", result [("tools", PDict [])]) ]))) /\
  run (mcp_endpoint L db (post a (inr (PDict d)))) =
    (inr (if unserialisable (envelope_id d)
          then JSONResponse
                 (PDict [ ("jsonrpc", PStr "2.0");
                          ("error",
                           PDict [ ("code", PInt (-32603));
                                   ("message",
                                    PStr (render_message L unary_document)) ]) ])
                 500
          else JSONResponse unary_document 200),
     initial).
Proof.
  intros Hu K. apply negb_true_iff in Hu. cbv zeta.
  split; [|split; [reflexivity|]].
  - unfold_endpoint. rewrite K. reflexivity.
  - unfold_endpoint. rewrite Hu; simpl. rewrite K; simpl.
    match goal with
    | |- context [unserialisable (success_response ?i ?r)] =>
        rewrite (unserialisable_success_response i r);
        change (unserialisable r) with false
    end.
    rewrite orb_false_r. destruct (unserialisable _); reflexivity.
Qed.

(** X14. Only a POST whose body is the object of a [tools/call] can
    reach the database: for every other request, whatever its verb,
    header and body, neither the endpoint nor the generator makes a
    driver call. *)
Theorem only_tools_call_reaches_database (request : request) :
  is_tools_call (json request) = false ->
  count is_db (log (snd (run (sse_generator L db request)))) = 0%nat /\
  count is_db (log (snd (run (mcp_endpoint L db request)))) = 0%nat.
Proof.
  destruct request as [verb a body]. simpl. intros H.
  assert (Hsse : forall verb',
             count is_db
               (log (snd (run (sse_generator L db
                                 {| method := verb'; accept := a; json := body |})))) = 0%nat).
  { intros [| |]; try reflexivity.
    destruct body as [[[| |] msg] | v]; try reflexivity.
    destruct v; try reflexivity.
    simpl in H. unfold_endpoint.
    destruct (eq_str (dict_get d "method" (PStr EmptyString)) "initialize");
      [reflexivity|].
    destruct (eq_str (dict_get d "method" (PStr EmptyString)) "tools/list");
      [reflexivity|].
    destruct (eq_str (dict_get d "method" (PStr EmptyString)) "resources/list");
      [reflexivity|].
    destruct (eq_str (dict_get d "method" (PStr EmptyString)) "prompts/list");
      [reflexivity|].
    rewrite H. reflexivity. }
  split; [apply Hsse|].
  destruct verb.
  - unfold run, mcp_endpoint. simpl. rewrite orb_true_r. reflexivity.
  - unfold run, mcp_endpoint. simpl.
    destruct (contains "text/event-stream"
                match a with Some a0 => a0 | None => EmptyString end);
      simpl; [reflexivity|].
    destruct body as [[[| |] msg] | v]; try reflexivity.
    destruct v; try reflexivity.
    simpl in H. unfold_endpoint.
    destruct (eq_str (dict_get d "method" (PStr EmptyString)) "initialize");
      [destruct (unserialisable _); reflexivity|].
    destruct (eq_str (dict_get d "method" (PStr EmptyString)) "tools/list");
      [destruct (unserialisable _); reflexivity|].
    destruct (eq_str (dict_get d "method" (PStr EmptyString)) "resources/list");
      [destruct (unserialisable _); reflexivity|].
    destruct (eq_str (dict_get d "method" (PStr EmptyString)) "prompts/list");
      [destruct (unserialisable _); reflexivity|].
    rewrite H. reflexivity.
  - reflexivity.
Qed.

(** ** Tools *)

Lemma count_app (kind : effect -> bool) (l1 l2 : list effect) :
  count kind (l1 ++ l2) = (count kind l1 + count kind l2)%nat.
Proof. unfold count. rewrite filter_app, length_app. reflexivity. Qed.

(** A call of a tool with a statement connects once on each transport. *)
Lemma known_tool_connects_once (a : option string) (d p : pydict) (q q' : pyval) :
  unary a = true ->
  envelope_method d = PStr "tools/call" ->
  envelope_params d = PDict p ->
  tool_query (sse_describe_query L) (call_name p) (call_arguments p) = Some q ->
  tool_query (http_describe_query L) (call_name p) (call_arguments p) = Some q' ->
  count is_connect (log (snd (run (sse_generator L db (post a (inr (PDict d))))))) = 1%nat /\
  count is_connect (log (snd (run (mcp_endpoint L db (post a (inr (PDict d))))))) = 1%nat.
Proof.
  intros Hu K Hp Hq Hq'.
  destruct (sse_tools_call_ex L db a d p q K Hp Hq) as (o & st' & E & R).
  destruct (http_tools_call_ex L db a d p q' Hu K Hp Hq') as (o' & st'' & E' & R').
  rewrite R, R'; simpl. rewrite count_app.
  pose proof (proj2 (execute_query_log_is_db q)) as H.
  pose proof (proj2 (execute_query_log_is_db q')) as H'.
  unfold run in H, H'. rewrite E in H. rewrite E' in H'. simpl in H, H'.
  rewrite H, H'. split; reflexivity.
Qed.

(** X15. The dispatcher and the catalog agree: with a mapping as
    [arguments], a [tools/call] connects to the database, once, exactly
    when the name of the tool is one that [tools/list] advertises, on
    both transports. *)
Theorem database_reached_iff_tool_advertised
        (a : option string) (d p : pydict) (name : string) :
  unary a = true ->
  envelope_method d = PStr "tools/call" ->
  envelope_params d = PDict p ->
  call_name p = PStr name ->
  mapping (call_arguments p) = true ->
  let connections :=
    if existsb (fun tool => eq_str tool name) (tool_names MCP_TOOLS)
    then 1%nat else 0%nat in
  count is_connect (log (snd (run (sse_generator L db (post a (inr (PDict d))))))) =
    connections /\
  count is_connect (log (snd (run (mcp_endpoint L db (post a (inr (PDict d))))))) =
    connections.
Proof.
  intros Hu K Hp Hn Ha. cbv zeta.
  destruct (call_arguments p) as [| | | | |args|] eqn:Hargs; try discriminate Ha.
  assert (known : forall describe,
             one_of (PStr name) known_tools = true ->
             exists q, tool_query describe (call_name p) (call_arguments p) = Some q).
  { intros describe H. unfold tool_query. rewrite Hn, Hargs.
    unfold one_of in H. simpl in H. simpl.
    destruct (String.eqb name "postgres_list_tables"); [eauto|].
    destruct (String.eqb name "postgres_describe_table"); [eauto|].
    destruct (String.eqb name "postgres_query"); [eauto | discriminate]. }
  change (tool_names MCP_TOOLS)
    with [PStr "postgres_query"; PStr "postgres_list_tables";
          PStr "postgres_describe_table"].
  cbn [existsb eq_str].
  destruct (one_of (PStr name) known_tools) eqn:Hk.
  - assert (Hadv : (String.eqb "postgres_query" name
                    || (String.eqb "postgres_list_tables" name
                        || (String.eqb "postgres_describe_table" name || false)))
                   = true).
    { unfold one_of, known_tools in Hk. cbn [existsb eq_str] in Hk.
      repeat (apply orb_true_iff in Hk; destruct Hk as [Hk | Hk]);
        try discriminate Hk; apply String.eqb_eq in Hk; subst name; reflexivity. }
    rewrite Hadv.
    destruct (known (sse_describe_query L) eq_refl) as [q Hq].
    destruct (known (http_describe_query L) eq_refl) as [q' Hq'].
    apply (known_tool_connects_once a d p q q'); assumption.
  - assert (Hadv : (String.eqb "postgres_query" name
                    || (String.eqb "postgres_list_tables" name
                        || (String.eqb "postgres_describe_table" name || false)))
                   = false).
    { unfold one_of, known_tools in Hk. cbn [existsb eq_str] in Hk.
      rewrite (String.eqb_sym "postgres_query"),
              (String.eqb_sym "postgres_list_tables"),
              (String.eqb_sym "postgres_describe_table").
      destruct (String.eqb name "postgres_list_tables"); [discriminate Hk|].
      destruct (String.eqb name "postgres_describe_table"); [discriminate Hk|].
      destruct (String.eqb name "postgres_query"); [discriminate Hk|].
      reflexivity. }
    rewrite Hadv. rewrite <- Hn in Hk.
    rewrite (sse_unknown_tool L db a d p K Hp Hk),
            (http_unknown_tool L db a d p Hu K Hp Hk).
    split; reflexivity.
Qed.

(** The statement of a tool reaches the driver as it is, on both
    transports, once connection and cursor are open. *)
Lemma tool_statement_issued (a : option string) (d p : pydict) (q q' : pyval) :
  connect db = inr tt ->
  open_cursor db = inr tt ->
  unary a = true ->
  envelope_method d = PStr "tools/call" ->
  envelope_params d = PDict p ->
  tool_query (sse_describe_query L) (call_name p) (call_arguments p) = Some q ->
  tool_query (http_describe_query L) (call_name p) (call_arguments p) = Some q' ->
  issued (log (snd (run (sse_generator L db (post a (inr (PDict d))))))) = [q] /\
  issued (log (snd (run (mcp_endpoint L db (post a (inr (PDict d))))))) = [q'].
Proof.
  intros Hc Ho Hu K Hp Hq Hq'.
  destruct (sse_tools_call_ex L db a d p q K Hp Hq) as (o & st' & E & R).
  destruct (http_tools_call_ex L db a d p q' Hu K Hp Hq') as (o' & st'' & E' & R').
  rewrite R, R'; simpl. rewrite issued_app; simpl.
  pose proof (proj2 (execute_query_trace L db q) Hc Ho) as H.
  pose proof (proj2 (execute_query_trace L db q') Hc Ho) as H'.
  unfold run in H, H'. rewrite E in H. rewrite E' in H'. simpl in H, H'.
  rewrite H, H'. split; reflexivity.
Qed.

(** X16. [postgres_query] hands its [query] argument to the driver
    unchanged, neither stripped nor converted, on both transports; a
    call without a [query] argument executes the empty statement. *)
Theorem postgres_query_passes_argument_unchanged
        (a : option string) (d p args : pydict) :
  connect db = inr tt ->
  open_cursor db = inr tt ->
  unary a = true ->
  envelope_method d = PStr "tools/call" ->
  envelope_params d = PDict p ->
  call_name p = PStr "postgres_query" ->
  call_arguments p = PDict args ->
  let statement := if dict_has args "query"
                   then dict_get args "query" PNone
                   else PStr EmptyString in
  issued (log (snd (run (sse_generator L db (post a (inr (PDict d))))))) = [statement] /\
  issued (log (snd (run (mcp_endpoint L db (post a (inr (PDict d))))))) = [statement].
Proof.
  intros Hc Ho Hu K Hp Hn Ha. cbv zeta.
  assert (E : (if dict_has args "query" then dict_get args "query" PNone
               else PStr EmptyString) = dict_get args "query" (PStr EmptyString)).
  { clear. induction args as [|[k v] args IH]; simpl; [reflexivity|].
    destruct (String.eqb k "query"); simpl; [reflexivity | exact IH]. }
  rewrite E.
  apply (tool_statement_issued a d p); try assumption;
    unfold tool_query; rewrite Hn, Ha; reflexivity.
Qed.

(** X17. [postgres_list_tables] never looks at its arguments: whatever
    [arguments] is, a mapping or not, the fixed statement over
    [information_schema.tables] is executed, on both transports. *)
Theorem list_tables_ignores_arguments (a : option string) (d p : pydict) :
  connect db = inr tt ->
  open_cursor db = inr tt ->
  unary a = true ->
  envelope_method d = PStr "tools/call" ->
  envelope_params d = PDict p ->
  call_name p = PStr "postgres_list_tables" ->
  let statement :=
    PStr "SELECT table_name FROM information_schema.tables WHERE table_schema='public' ORDER BY table_name" in
  issued (log (snd (run (sse_generator L db (post a (inr (PDict d))))))) = [statement] /\
  issued (log (snd (run (mcp_endpoint L db (post a (inr (PDict d))))))) = [statement].
Proof.
  intros Hc Ho Hu K Hp Hn. cbv zeta.
  apply (tool_statement_issued a d p); try assumption;
    unfold tool_query; rewrite Hn; reflexivity.
Qed.

(** X19. A [tools/call] that names no tool, because [params] or its
    [name] is missing, is not an error of the protocol: the name defaults
    to the empty string and the answer is the success envelope, with the
    id of the envelope, whose text is the serialised
    [{success: False, error: "Unknown tool: "}].  This is the frame of
    the streamed transport, and the document of the unary transport
    with status 200 when [JSONResponse] can serialise the id; when it
    cannot, the unary answer is 500 with code -32603 and no id. *)
Theorem call_without_tool_name_is_unknown_tool (a : option string) (d : pydict) :
  unary a = true ->
  envelope_method d = PStr "tools/call" ->
  dict_has d "params" = false \/
  (exists p, envelope_params d = PDict p /\ dict_has p "name" = false) ->
  let result :=
    PDict [ ("success", PBool false); ("error", PStr "Unknown tool: ") ] in
  let response :=
    PDict [ ("jsonrpc", PStr "2.0");
            ("id", envelope_id d);
            ("result",
             PDict [ ("content",
                      PList [ PDict [ ("type", PStr "text");
                                      ("text", PStr (json_dumps_indent2 L result)) ] ]) ]) ] in
  run (sse_generator L db (post a (inr (PDict d)))) =
    (inr tt, {| conn := None; cursor := None; log := [Yield (Data response)] |}) /\
  run (mcp_endpoint L db (post a (inr (PDict d)))) =
    (inr (if unserialisable (envelope_id d)
          then JSONResponse
                 (PDict [ ("jsonrpc", PStr "2.0");
                          ("error",
                           PDict [ ("code", PInt (-32603));
                                   ("message", PStr (render_message L response)) ]) ])
                 500
          else JSONResponse response 200),
     initial).
Proof.
  intros Hu K H. cbv zeta.
  assert (Hp : exists p, envelope_params d = PDict p /\
                         call_name p = PStr EmptyString).
  { destruct H as [H | (p & Hp & Hn)].
    - exists []. split; [apply dict_get_absent, H | reflexivity].
    - exists p. split; [exact Hp | apply dict_get_absent, Hn]. }
  destruct Hp as (p & Hp & Hn).
  assert (Hk : one_of (call_name p) known_tools = false) by (rewrite Hn; reflexivity).
  rewrite (sse_unknown_tool L db a d p K Hp Hk),
          (http_unknown_tool L db a d p Hu K Hp Hk), Hn.
  split; [reflexivity|].
  unfold http_answer. rewrite unserialisable_tool_response. reflexivity.
Qed.

(** X20. [postgres_describe_table] without a [table_name], or without
    [arguments] at all, is not refused: the statement is executed for
    the empty table name, on both transports. *)
Theorem describe_without_table_name_uses_empty_name
        (a : option string) (d p : pydict) :
  connect db = inr tt ->
  open_cursor db = inr tt ->
  unary a = true ->
  envelope_method d = PStr "tools/call" ->
  envelope_params d = PDict p ->
  call_name p = PStr "postgres_describe_table" ->
  dict_has p "arguments" = false \/
  (exists args, call_arguments p = PDict args /\ dict_has args "table_name" = false) ->
  issued (log (snd (run (sse_generator L db (post a (inr (PDict d))))))) =
    [ PStr (nl ++ spaces 36
            ++ "SELECT column_name, data_type, is_nullable, column_default"
            ++ nl ++ spaces 36 ++ "FROM information_schema.columns"
            ++ nl ++ spaces 36 ++ "WHERE table_name = ''"
            ++ nl ++ spaces 36 ++ "ORDER BY ordinal_position"
            ++ nl ++ spaces 32) ] /\
  issued (log (snd (run (mcp_endpoint L db (post a (inr (PDict d))))))) =
    [ PStr "SELECT column_name, data_type, is_nullable FROM information_schema.columns WHERE table_name = '' ORDER BY ordinal_position" ].
Proof.
  intros Hc Ho Hu K Hp Hn H.
  assert (Ha : exists args, call_arguments p = PDict args /\
                            dict_get args "table_name" (PStr EmptyString) = PStr EmptyString).
  { destruct H as [H | (args & Ha & Ht)].
    - exists []. split; [apply dict_get_absent, H | reflexivity].
    - exists args. split; [exact Ha | apply dict_get_absent, Ht]. }
  destruct Ha as (args & Ha & Ht).
  apply (tool_statement_issued a d p); try assumption;
    unfold tool_query; rewrite Hn, Ha; simpl; rewrite Ht; reflexivity.
Qed.

(** ** The endpoint as a whole *)

(** The documents of the unary handler have status 200 or 500. *)
Lemma http_answer_status (content : pyval) :
  exists doc status,
    http_answer L content = JSONResponse doc status /\
    (status = 200 \/ status = 500).
Proof.
  unfold http_answer, http_error.
  destruct (unserialisable content); eexists; eexists; split;
    try reflexivity; auto.
Qed.

Lemma http_call_response_status (msg_id : pyval) (o : exn + pyval) :
  exists doc status,
    http_call_response L msg_id o = JSONResponse doc status /\
    (status = 200 \/ status = 500).
Proof.
  destruct o as [e | result]; simpl; [|apply http_answer_status].
  unfold http_error. eexists. eexists. split; [reflexivity | auto].
Qed.

(** X18. [mcp_endpoint] never raises.  OPTIONS is answered by an empty
    200 and nothing else is; a GET, and a POST that accepts
    [text/event-stream], are answered by the stream of [sse_generator]
    before any of it has run; any other POST is answered by a JSON
    document with status 200 or 500, or by nothing when the method of
    the envelope is unknown. *)
Theorem mcp_endpoint_never_raises (request : request) :
  exists resp st,
    run (mcp_endpoint L db request) = (inr resp, st) /\
    match resp with
    | Response status _ => status = 200 /\ method request = OPTIONS
    | StreamingResponse content media_type _ =>
        content = sse_generator L db request /\
        media_type = "text/event-stream" /\
        st = initial /\
        (method request = GET \/
         method request = POST /\ unary (accept request) = false)
    | JSONResponse _ status =>
        (status = 200 \/ status = 500) /\
        method request = POST /\ unary (accept request) = true
    | ReturnsNone =>
        method request = POST /\ unary (accept request) = true /\
        exists d, json request = inr (PDict d) /\
                  one_of (envelope_method d) known_methods = false
    end.
Proof.
  destruct request as [verb a body]. destruct verb.
  - unfold run, mcp_endpoint. simpl. rewrite orb_true_r.
    eexists. eexists. split; [reflexivity|]. simpl. auto.
  - destruct (unary a) eqn:Hu.
    + change {| method := POST; accept := a; json := body |} with (post a body).
      destruct body as [e | v].
      { pose proof Hu as Hu'. apply negb_true_iff in Hu'.
        unfold run, mcp_endpoint. simpl. rewrite Hu'. simpl.
        eexists. eexists. split; [reflexivity|]. simpl. auto. }
      destruct v;
        try (pose proof Hu as Hu'; apply negb_true_iff in Hu';
             unfold run, mcp_endpoint; simpl; rewrite Hu'; simpl;
             eexists; eexists; split; [reflexivity|]; simpl; auto).
      destruct (faultless d) eqn:F.
      * destruct (one_of (envelope_method d) known_methods) eqn:K.
        -- assert (Hk := K). unfold one_of in K. simpl in K.
           repeat (apply orb_true_iff in K; destruct K as [K | K]);
             try discriminate K; apply eq_str_true in K.
           1-4: (destruct (http_plain_method L db a d _ Hu K ltac:(simpl; tauto))
                   as (result & R & _);
                 rewrite R;
                 destruct (http_answer_status (success_response (envelope_id d) result))
                   as (doc & status & -> & Hs);
                 eexists; eexists; (split; [reflexivity|]); simpl; auto).
           destruct (faultless_call L d F K) as (p & Hp & [Ht | [_ [q Hq]]]).
           ++ rewrite (http_unknown_tool L db a d p Hu K Hp Ht).
              match goal with
              | |- context [http_answer L ?c] =>
                  destruct (http_answer_status c) as (doc & status & -> & Hs)
              end.
              eexists. eexists. split; [reflexivity|]. simpl. auto.
           ++ destruct (http_tools_call_ex L db a d p q Hu K Hp Hq)
                as (o & st' & E & R).
              rewrite R.
              destruct (http_call_response_status (envelope_id d) o)
                as (doc & status & -> & Hs).
              eexists. eexists. split; [reflexivity|]. simpl. auto.
        -- rewrite (http_unknown_method L db a d Hu K).
           eexists. eexists. split; [reflexivity|]. simpl. eauto.
      * destruct (fault_answers L db a d F) as (v & _ & _ & _ & R).
        rewrite (R Hu). eexists. eexists. split; [reflexivity|]. simpl. auto.
    + pose proof Hu as Hu'. apply negb_false_iff in Hu'.
      unfold run, mcp_endpoint. simpl. rewrite Hu'. simpl.
      eexists. eexists. split; [reflexivity|]. simpl. auto 6.
  - eexists. eexists. split; [reflexivity|]. simpl. auto.
Qed.

End Coverage.

(** * Further instances *)

Lemma classification_witness :
  all_space "  " /\ all_space nl /\ caseless "Select 1" "SELECT 1" /\
  is_read_like ("  " ++ "Select 1" ++ nl) = is_read_like "SELECT 1".
Proof.
  assert (H1 : all_space "  ") by (simpl; auto).
  assert (H2 : all_space nl) by (simpl; auto).
  assert (H3 : caseless "Select 1" "SELECT 1") by (apply caseless_upper; reflexivity).
  repeat (split; [assumption|]).
  apply (classification_ignores_case_and_outer_space "  " "Select 1" "SELECT 1" nl H1 H2 H3).
Defined.

Lemma non_string_query_witness :
  is_str (PInt 5) = false /\
  rollback sample_db = inr tt /\
  fst (run (execute_query sample_lib sample_db (PInt 5))) =
    inr (PDict [ ("success", PBool false);
                 ("error", PStr "'int' object has no attribute 'strip'") ]).
Proof.
  do 2 (split; [reflexivity|]).
  destruct (non_string_query_fails_without_commit sample_lib sample_db (PInt 5) eq_refl)
    as (_ & _ & _ & H4).
  apply (H4 eq_refl eq_refl); [|reflexivity].
  eexists. reflexivity.
Defined.

Lemma row_dict_witness :
  dict_get (dict_of_pairs (zip ["id"; "name"; "id"] [PInt 1; PStr "x"; PInt 2]))
           "id" PNone = PInt 2 /\
  NoDup ["id"; "name"] /\
  dict_get (dict_of_pairs (zip ["id"; "name"] [PInt 1; PStr "x"])) "name" PNone = PStr "x".
Proof.
  assert (Hn : NoDup ["id"; "name"]).
  { repeat constructor; simpl; intuition discriminate. }
  split; [|split; [exact Hn|]].
  - rewrite (proj1 (proj2 (row_dict_keeps_last_column_of_a_name
                             ["id"; "name"; "id"] [PInt 1; PStr "x"; PInt 2] PNone))).
    reflexivity.
  - apply (proj2 (proj2 (row_dict_keeps_last_column_of_a_name
                           ["id"; "name"] [PInt 1; PStr "x"] PNone)) Hn 1%nat);
      reflexivity.
Defined.

Lemma unreadable_body_witness :
  unreadable (inr (PList [])) = Some "'list' object has no attribute 'get'" /\
  run (mcp_endpoint sample_lib sample_db (post json_accept (inr (PList [])))) =
    (inr (JSONResponse
            (rpc_error_no_id (-32603) "'list' object has no attribute 'get'") 500),
     initial).
Proof.
  split; [reflexivity|].
  apply (unreadable_body_is_internal_error sample_lib sample_db json_accept
           (inr (PList [])) "'list' object has no attribute 'get'" eq_refl).
  reflexivity.
Defined.

Lemma unreadable_arguments_witness :
  faultless list_arguments_call = false /\
  exists v,
    mapping v = false /\
    run (mcp_endpoint sample_lib sample_db (post json_accept (inr (PDict list_arguments_call)))) =
      (inr (JSONResponse
              (rpc_error_no_id (-32603)
                 ("'" ++ type_name v ++ "' object has no attribute 'get'")) 500),
       initial).
Proof.
  split; [reflexivity|].
  destruct (unreadable_arguments_are_internal_error sample_lib sample_db json_accept
              list_arguments_call eq_refl) as (v & Hv & _ & _ & Hu).
  exists v. split; [exact Hv | exact (Hu eq_refl)].
Defined.

Lemma transports_agree_witness :
  unary json_accept = true /\
  faultless query_call = true /\
  calls_describe query_call = false /\
  returns sample_lib sample_db (query_of (sse_describe_query sample_lib) query_call) = true /\
  unserialisable (envelope_id query_call) = false /\
  exists resp,
    frames (log (snd (run (sse_generator sample_lib sample_db
                             (post json_accept (inr (PDict query_call))))))) = [Data resp] /\
    fst (run (mcp_endpoint sample_lib sample_db
                (post json_accept (inr (PDict query_call))))) =
      inr (JSONResponse resp 200).
Proof.
  do 5 (split; [reflexivity|]).
  destruct (transports_agree_outside_initialize_and_describe sample_lib sample_db
              json_accept query_call eq_refl eq_refl eq_refl eq_refl)
    as (_ & H).
  apply H; reflexivity.
Defined.

Lemma initialize_witness :
  unary json_accept = true /\
  envelope_method initialize_call = PStr "initialize" /\
  run (mcp_endpoint sample_lib sample_db (post json_accept (inr (PDict initialize_call)))) =
    (inr (JSONResponse
            (PDict [ ("jsonrpc", PStr "2.0"); ("id", PInt 7);
                     ("result",
                      PDict [ ("protocolVersion", PStr "2024-11-05");
                              ("capabilities",
                               PDict [ ("tools", PDict []);
                                       ("resources", PDict []);
                                       ("prompts", PDict []) ]);
                              ("serverInfo",
                               PDict [ ("name", PStr "PostgreSQL MCP Server");
                                       ("version", PStr "1.0.0") ]) ]) ])
            200),
     initial).
Proof.
  do 2 (split; [reflexivity|]).
  apply (initialize_capabilities_by_transport sample_lib sample_db json_accept None
           initialize_call bad_json eq_refl eq_refl).
Defined.

Lemma only_tools_call_witness :
  is_tools_call (json (post sse_accept (inr (PDict nonexistent_call)))) = false /\
  count is_db (log (snd (run (sse_generator sample_lib sample_db
                                (post sse_accept (inr (PDict nonexistent_call))))))) = 0%nat.
Proof.
  split; [reflexivity|].
  apply (only_tools_call_reaches_database sample_lib sample_db
           (post sse_accept (inr (PDict nonexistent_call))) eq_refl).
Defined.

Lemma tool_advertised_witness :
  unary json_accept = true /\
  mapping (PDict [("query", PStr "DELETE FROM t")]) = true /\
  count is_connect
    (log (snd (run (mcp_endpoint sample_lib sample_db
                      (post json_accept (inr (PDict query_call))))))) = 1%nat /\
  count is_connect
    (log (snd (run (mcp_endpoint sample_lib sample_db
                      (post json_accept (inr (PDict unknown_tool_call))))))) = 0%nat.
Proof.
  do 2 (split; [reflexivity|]). split.
  - apply (database_reached_iff_tool_advertised sample_lib sample_db json_accept
             query_call
             [ ("name", PStr "postgres_query");
               ("arguments", PDict [("query", PStr "DELETE FROM t")]) ]
             "postgres_query"); reflexivity.
  - apply (database_reached_iff_tool_advertised sample_lib sample_db json_accept
             unknown_tool_call
             [ ("name", PStr "postgres_drop"); ("arguments", PDict []) ]
             "postgres_drop"); reflexivity.
Defined.

Lemma postgres_query_witness :
  connect sample_db = inr tt /\
  open_cursor sample_db = inr tt /\
  unary json_accept = true /\
  issued (log (snd (run (sse_generator sample_lib sample_db
                           (post json_accept (inr (PDict query_call))))))) =
    [PStr "DELETE FROM t"].
Proof.
  do 3 (split; [reflexivity|]).
  apply (postgres_query_passes_argument_unchanged sample_lib sample_db json_accept
           query_call
           [ ("name", PStr "postgres_query");
             ("arguments", PDict [("query", PStr "DELETE FROM t")]) ]
           [ ("query", PStr "DELETE FROM t") ]);
    reflexivity.
Defined.

Lemma list_tables_witness :
  connect sample_db = inr tt /\
  open_cursor sample_db = inr tt /\
  unary json_accept = true /\
  call_arguments [ ("name", PStr "postgres_list_tables"); ("arguments", PList [PInt 1]) ] =
    PList [PInt 1] /\
  issued (log (snd (run (mcp_endpoint sample_lib sample_db
                           (post json_accept (inr (PDict list_tables_odd_call))))))) =
    [PStr list_tables_query].
Proof.
  do 4 (split; [reflexivity|]).
  apply (list_tables_ignores_arguments sample_lib sample_db json_accept
           list_tables_odd_call
           [ ("name", PStr "postgres_list_tables"); ("arguments", PList [PInt 1]) ]);
    reflexivity.
Defined.

Lemma call_without_tool_name_witness :
  unary json_accept = true /\
  dict_has bare_call "params" = false /\
  run (mcp_endpoint sample_lib sample_db (post json_accept (inr (PDict bare_call)))) =
    (inr (JSONResponse
            (PDict [ ("jsonrpc", PStr "2.0");
                     ("id", PInt 7);
                     ("result",
                      PDict [ ("content",
                               PList [ PDict [ ("type", PStr "text");
                                               ("text",
                                                PStr (show
                                                        (PDict [ ("success", PBool false);
                                                                 ("error",
                                                                  PStr "Unknown tool: ") ]))) ] ]) ]) ])
            200),
     initial).
Proof.
  do 2 (split; [reflexivity|]).
  apply (call_without_tool_name_is_unknown_tool sample_lib sample_db json_accept
           bare_call eq_refl eq_refl).
  left. reflexivity.
Defined.

Lemma describe_without_table_name_witness :
  connect sample_db = inr tt /\
  open_cursor sample_db = inr tt /\
  unary json_accept = true /\
  dict_has [ ("name", PStr "postgres_describe_table") ] "arguments" = false /\
  issued (log (snd (run (mcp_endpoint sample_lib sample_db
                           (post json_accept (inr (PDict bare_describe_call))))))) =
    [ PStr "SELECT column_name, data_type, is_nullable FROM information_schema.columns WHERE table_name = '' ORDER BY ordinal_position" ].
Proof.
  do 4 (split; [reflexivity|]).
  apply (describe_without_table_name_uses_empty_name sample_lib sample_db json_accept
           bare_describe_call [ ("name", PStr "postgres_describe_table") ]);
    try reflexivity.
  left. reflexivity.
Defined.
